(** * The task list client of ModelArkVideoAPI (static/js/app.js)

    A shallow embedding of the Vue component's methods.  The component is
    modelled as a record of its [data()] fields; its methods are
    computations in a small state-and-exception monad that also records
    what the method does to its surroundings: the HTTP requests issued
    through axios, the toasts appended to the page, the lines written to
    the console, the [confirm] dialogs shown and the timers armed.

    Conventions of the model:
    - a JavaScript string is the Rocq [string] of its UTF-8 bytes;
    - a JavaScript number is an integer [z : Z] in the range where
      [String(z)] is plain decimal notation;
    - each method runs without interleaving with other callbacks. *)

From Stdlib Require Import ZArith List String Ascii Bool Lia DecimalString.
Import ListNotations.
Local Open Scope string_scope.
Set Warnings "-register-all".

(** ** JavaScript values *)

Inductive value : Type :=
| VUndefined
| VNull
| VBool (b : bool)
| VNum (z : Z)
| VStr (s : string)
| VArr (l : list value)
| VObj (fields : list (string * value)).

(** ToBoolean: what [if (v)], [!v], [v ? a : b] and [v || w] test. *)
Definition truthy (v : value) : bool :=
  match v with
  | VUndefined | VNull => false
  | VBool b => b
  | VNum z => negb (z =? 0)%Z
  | VStr s => negb (s =? "")
  | VArr _ | VObj _ => true
  end.

(** [v || w] *)
Definition js_or (v w : value) : value := if truthy v then v else w.

Definition num_to_string (z : Z) : string := NilZero.string_of_int (Z.to_int z).

(** ToString: what a template literal [`${v}`] and ['text' + v] splice in. *)
Fixpoint to_string (v : value) : string :=
  match v with
  | VUndefined => "undefined"
  | VNull => "null"
  | VBool true => "true"
  | VBool false => "false"
  | VNum z => num_to_string z
  | VStr s => s
  | VArr l =>
      String.concat ","
        (map (fun x => match x with
                       | VUndefined | VNull => ""
                       | _ => to_string x
                       end) l)
  | VObj _ => "[object Object]"
  end.

(** [v !== null] and [v !== ''] *)
Definition strict_neq_null (v : value) : bool :=
  match v with VNull => false | _ => true end.

Definition strict_neq_empty (v : value) : bool :=
  match v with VStr s => negb (s =? "") | _ => true end.

Fixpoint lookup (k : string) (fields : list (string * value)) : option value :=
  match fields with
  | [] => None
  | (k', v) :: rest => if k' =? k then Some v else lookup k rest
  end.

(** ** String.prototype.trim

    [trim] removes the ECMAScript WhiteSpace and LineTerminator code points
    from both ends.  On UTF-8 bytes these are the one-byte codes 9..13 and
    32 and the multi-byte sequences listed in [white_space]. *)

Definition bytes (l : list nat) : string :=
  string_of_list_ascii (map ascii_of_nat l).

Definition white_space : list string :=
  map bytes
    [ [9]; [10]; [11]; [12]; [13]; [32];
      [194; 160];                                   (* U+00A0 *)
      [225; 154; 128];                              (* U+1680 *)
      [226; 128; 128]; [226; 128; 129]; [226; 128; 130]; [226; 128; 131];
      [226; 128; 132]; [226; 128; 133]; [226; 128; 134]; [226; 128; 135];
      [226; 128; 136]; [226; 128; 137]; [226; 128; 138];  (* U+2000..U+200A *)
      [226; 128; 168]; [226; 128; 169];             (* U+2028, U+2029 *)
      [226; 128; 175];                              (* U+202F *)
      [226; 129; 159];                              (* U+205F *)
      [227; 128; 128];                              (* U+3000 *)
      [239; 187; 191] ].                            (* U+FEFF *)

(** [strip_prefix p s] is the rest of [s] after its prefix [p], if any. *)
Fixpoint strip_prefix (p s : string) : option string :=
  match p with
  | EmptyString => Some s
  | String a p' =>
      match s with
      | EmptyString => None
      | String b s' => if Ascii.eqb a b then strip_prefix p' s' else None
      end
  end.

Fixpoint strip_any (ps : list string) (s : string) : option string :=
  match ps with
  | [] => None
  | p :: ps' =>
      match strip_prefix p s with
      | Some r => Some r
      | None => strip_any ps' s
      end
  end.

Fixpoint strip_all (fuel : nat) (ps : list string) (s : string) : string :=
  match fuel with
  | O => s
  | S fuel' =>
      match strip_any ps s with
      | Some r => strip_all fuel' ps r
      | None => s
      end
  end.

Definition rev_string (s : string) : string :=
  string_of_list_ascii (rev (list_ascii_of_string s)).

Definition trimStart (s : string) : string :=
  strip_all (String.length s) white_space s.

Definition trimEnd (s : string) : string :=
  rev_string
    (strip_all (String.length s) (map rev_string white_space) (rev_string s)).

Definition trim (s : string) : string := trimEnd (trimStart s).

(** A string that is a concatenation of members of [ps]. *)
Inductive made_of (ps : list string) : string -> Prop :=
| made_of_empty : made_of ps ""
| made_of_more p s : In p ps -> made_of ps s -> made_of ps (p ++ s).

(** A string that is empty or consists of white space only. *)
Definition blank (s : string) : Prop := made_of white_space s.

(** ** The draft and the parameter string *)

Record refImage : Type := { url : value }.

(** [newTask].  The variant of the client without image input has only
    [prompt] and the five generation parameters; there [imageMode],
    [images] and [referenceImages] are never read or written. *)
Record draft : Type := {
  prompt : string;
  imageMode : string;
  images : list value;
  referenceImages : list refImage;
  ratio : value;
  duration : value;
  resolution : value;
  seed : value;
  camera_fixed : value
}.

Definition default_draft : draft :=
  {| prompt := "";
     imageMode := "none";
     images := [VNull; VNull];
     referenceImages := [ {| url := VNull |} ];
     ratio := VStr "16:9";
     duration := VNum 5;
     resolution := VStr "720p";
     seed := VNull;
     camera_fixed := VBool false |}.

(** The array [params] that [buildParameterString] fills by [push]. *)
Definition params (d : draft) : list string :=
  (if truthy (ratio d) then ["--rt " ++ to_string (ratio d)] else [])
  ++ (if truthy (duration d) then ["--dur " ++ to_string (duration d)] else [])
  ++ ["--fps 24"]
  ++ (if truthy (resolution d) then ["--rs " ++ to_string (resolution d)] else [])
  ++ (if strict_neq_null (seed d) && strict_neq_empty (seed d)
      then ["--seed " ++ to_string (seed d)] else [])
  ++ ["--cf " ++ (if truthy (camera_fixed d) then "true" else "false")].

Definition buildParameterString (d : draft) : string :=
  String.concat " " (params d).

(** ** The surroundings of the component *)

Inductive method : Type := GET | POST | DELETE.

Record request : Type := { meth : method; path : string; body : value }.

(** What axios resolves with: only [response.data] is read. *)
Record response : Type := { data : value }.

(** What is thrown: an axios error carries [response.data] when the backend
    answered; a TypeError raised by the engine has no [response]. *)
Record error : Type := { response_data : option value; message : string }.

Inductive outcome : Type :=
| Resolved (r : response)
| Rejected (e : error).

(** The backend and the user.  [http n q] is the outcome of request [q]
    when it is the [n]-th request issued; [confirm n msg] is the user's
    answer to the [n]-th dialog. *)
Record env : Type := {
  http : nat -> request -> outcome;
  confirm : nat -> string -> bool
}.

Inductive toast_kind : Type := Success | Failure.

(** A toast node appended to the page, removed after [dismiss_ms]. *)
Record toast : Type := { kind : toast_kind; text : string; dismiss_ms : Z }.

Inductive timer : Type := OpenSettings (ms : Z).

(** The component's [data()] followed by the trace of its effects. *)
Record app : Type := {
  tasks : value;
  newTask : draft;
  imageInputModes : list string;
  imagePreviews : list value;
  refImageInputModes : list string;
  refImagePreviews : list value;
  showSettings : bool;
  apiKey : string;
  apiKeyConfigured : value;
  previewTaskId : value;
  polling : value;
  isCreating : bool;
  requests : list request;
  toasts : list toast;
  console : list (string * error);
  dialogs : list string;
  timers : list timer;
  reloads : nat
}.

Definition set_tasks (x : value) (a : app) : app :=
  {| tasks := x;
     newTask := newTask a;
     imageInputModes := imageInputModes a;
     imagePreviews := imagePreviews a;
     refImageInputModes := refImageInputModes a;
     refImagePreviews := refImagePreviews a;
     showSettings := showSettings a;
     apiKey := apiKey a;
     apiKeyConfigured := apiKeyConfigured a;
     previewTaskId := previewTaskId a;
     polling := polling a;
     isCreating := isCreating a;
     requests := requests a;
     toasts := toasts a;
     console := console a;
     dialogs := dialogs a;
     timers := timers a;
     reloads := reloads a |}.

Definition set_newTask (x : draft) (a : app) : app :=
  {| tasks := tasks a;
     newTask := x;
     imageInputModes := imageInputModes a;
     imagePreviews := imagePreviews a;
     refImageInputModes := refImageInputModes a;
     refImagePreviews := refImagePreviews a;
     showSettings := showSettings a;
     apiKey := apiKey a;
     apiKeyConfigured := apiKeyConfigured a;
     previewTaskId := previewTaskId a;
     polling := polling a;
     isCreating := isCreating a;
     requests := requests a;
     toasts := toasts a;
     console := console a;
     dialogs := dialogs a;
     timers := timers a;
     reloads := reloads a |}.

Definition set_imageInputModes (x : list string) (a : app) : app :=
  {| tasks := tasks a;
     newTask := newTask a;
     imageInputModes := x;
     imagePreviews := imagePreviews a;
     refImageInputModes := refImageInputModes a;
     refImagePreviews := refImagePreviews a;
     showSettings := showSettings a;
     apiKey := apiKey a;
     apiKeyConfigured := apiKeyConfigured a;
     previewTaskId := previewTaskId a;
     polling := polling a;
     isCreating := isCreating a;
     requests := requests a;
     toasts := toasts a;
     console := console a;
     dialogs := dialogs a;
     timers := timers a;
     reloads := reloads a |}.

Definition set_imagePreviews (x : list value) (a : app) : app :=
  {| tasks := tasks a;
     newTask := newTask a;
     imageInputModes := imageInputModes a;
     imagePreviews := x;
     refImageInputModes := refImageInputModes a;
     refImagePreviews := refImagePreviews a;
     showSettings := showSettings a;
     apiKey := apiKey a;
     apiKeyConfigured := apiKeyConfigured a;
     previewTaskId := previewTaskId a;
     polling := polling a;
     isCreating := isCreating a;
     requests := requests a;
     toasts := toasts a;
     console := console a;
     dialogs := dialogs a;
     timers := timers a;
     reloads := reloads a |}.

Definition set_refImageInputModes (x : list string) (a : app) : app :=
  {| tasks := tasks a;
     newTask := newTask a;
     imageInputModes := imageInputModes a;
     imagePreviews := imagePreviews a;
     refImageInputModes := x;
     refImagePreviews := refImagePreviews a;
     showSettings := showSettings a;
     apiKey := apiKey a;
     apiKeyConfigured := apiKeyConfigured a;
     previewTaskId := previewTaskId a;
     polling := polling a;
     isCreating := isCreating a;
     requests := requests a;
     toasts := toasts a;
     console := console a;
     dialogs := dialogs a;
     timers := timers a;
     reloads := reloads a |}.

Definition set_refImagePreviews (x : list value) (a : app) : app :=
  {| tasks := tasks a;
     newTask := newTask a;
     imageInputModes := imageInputModes a;
     imagePreviews := imagePreviews a;
     refImageInputModes := refImageInputModes a;
     refImagePreviews := x;
     showSettings := showSettings a;
     apiKey := apiKey a;
     apiKeyConfigured := apiKeyConfigured a;
     previewTaskId := previewTaskId a;
     polling := polling a;
     isCreating := isCreating a;
     requests := requests a;
     toasts := toasts a;
     console := console a;
     dialogs := dialogs a;
     timers := timers a;
     reloads := reloads a |}.

Definition set_showSettings (x : bool) (a : app) : app :=
  {| tasks := tasks a;
     newTask := newTask a;
     imageInputModes := imageInputModes a;
     imagePreviews := imagePreviews a;
     refImageInputModes := refImageInputModes a;
     refImagePreviews := refImagePreviews a;
     showSettings := x;
     apiKey := apiKey a;
     apiKeyConfigured := apiKeyConfigured a;
     previewTaskId := previewTaskId a;
     polling := polling a;
     isCreating := isCreating a;
     requests := requests a;
     toasts := toasts a;
     console := console a;
     dialogs := dialogs a;
     timers := timers a;
     reloads := reloads a |}.

Definition set_apiKey (x : string) (a : app) : app :=
  {| tasks := tasks a;
     newTask := newTask a;
     imageInputModes := imageInputModes a;
     imagePreviews := imagePreviews a;
     refImageInputModes := refImageInputModes a;
     refImagePreviews := refImagePreviews a;
     showSettings := showSettings a;
     apiKey := x;
     apiKeyConfigured := apiKeyConfigured a;
     previewTaskId := previewTaskId a;
     polling := polling a;
     isCreating := isCreating a;
     requests := requests a;
     toasts := toasts a;
     console := console a;
     dialogs := dialogs a;
     timers := timers a;
     reloads := reloads a |}.

Definition set_apiKeyConfigured (x : value) (a : app) : app :=
  {| tasks := tasks a;
     newTask := newTask a;
     imageInputModes := imageInputModes a;
     imagePreviews := imagePreviews a;
     refImageInputModes := refImageInputModes a;
     refImagePreviews := refImagePreviews a;
     showSettings := showSettings a;
     apiKey := apiKey a;
     apiKeyConfigured := x;
     previewTaskId := previewTaskId a;
     polling := polling a;
     isCreating := isCreating a;
     requests := requests a;
     toasts := toasts a;
     console := console a;
     dialogs := dialogs a;
     timers := timers a;
     reloads := reloads a |}.

Definition set_isCreating (x : bool) (a : app) : app :=
  {| tasks := tasks a;
     newTask := newTask a;
     imageInputModes := imageInputModes a;
     imagePreviews := imagePreviews a;
     refImageInputModes := refImageInputModes a;
     refImagePreviews := refImagePreviews a;
     showSettings := showSettings a;
     apiKey := apiKey a;
     apiKeyConfigured := apiKeyConfigured a;
     previewTaskId := previewTaskId a;
     polling := polling a;
     isCreating := x;
     requests := requests a;
     toasts := toasts a;
     console := console a;
     dialogs := dialogs a;
     timers := timers a;
     reloads := reloads a |}.

Definition set_requests (x : list request) (a : app) : app :=
  {| tasks := tasks a;
     newTask := newTask a;
     imageInputModes := imageInputModes a;
     imagePreviews := imagePreviews a;
     refImageInputModes := refImageInputModes a;
     refImagePreviews := refImagePreviews a;
     showSettings := showSettings a;
     apiKey := apiKey a;
     apiKeyConfigured := apiKeyConfigured a;
     previewTaskId := previewTaskId a;
     polling := polling a;
     isCreating := isCreating a;
     requests := x;
     toasts := toasts a;
     console := console a;
     dialogs := dialogs a;
     timers := timers a;
     reloads := reloads a |}.

Definition set_toasts (x : list toast) (a : app) : app :=
  {| tasks := tasks a;
     newTask := newTask a;
     imageInputModes := imageInputModes a;
     imagePreviews := imagePreviews a;
     refImageInputModes := refImageInputModes a;
     refImagePreviews := refImagePreviews a;
     showSettings := showSettings a;
     apiKey := apiKey a;
     apiKeyConfigured := apiKeyConfigured a;
     previewTaskId := previewTaskId a;
     polling := polling a;
     isCreating := isCreating a;
     requests := requests a;
     toasts := x;
     console := console a;
     dialogs := dialogs a;
     timers := timers a;
     reloads := reloads a |}.

Definition set_console (x : list (string * error)) (a : app) : app :=
  {| tasks := tasks a;
     newTask := newTask a;
     imageInputModes := imageInputModes a;
     imagePreviews := imagePreviews a;
     refImageInputModes := refImageInputModes a;
     refImagePreviews := refImagePreviews a;
     showSettings := showSettings a;
     apiKey := apiKey a;
     apiKeyConfigured := apiKeyConfigured a;
     previewTaskId := previewTaskId a;
     polling := polling a;
     isCreating := isCreating a;
     requests := requests a;
     toasts := toasts a;
     console := x;
     dialogs := dialogs a;
     timers := timers a;
     reloads := reloads a |}.

Definition set_dialogs (x : list string) (a : app) : app :=
  {| tasks := tasks a;
     newTask := newTask a;
     imageInputModes := imageInputModes a;
     imagePreviews := imagePreviews a;
     refImageInputModes := refImageInputModes a;
     refImagePreviews := refImagePreviews a;
     showSettings := showSettings a;
     apiKey := apiKey a;
     apiKeyConfigured := apiKeyConfigured a;
     previewTaskId := previewTaskId a;
     polling := polling a;
     isCreating := isCreating a;
     requests := requests a;
     toasts := toasts a;
     console := console a;
     dialogs := x;
     timers := timers a;
     reloads := reloads a |}.

Definition set_timers (x : list timer) (a : app) : app :=
  {| tasks := tasks a;
     newTask := newTask a;
     imageInputModes := imageInputModes a;
     imagePreviews := imagePreviews a;
     refImageInputModes := refImageInputModes a;
     refImagePreviews := refImagePreviews a;
     showSettings := showSettings a;
     apiKey := apiKey a;
     apiKeyConfigured := apiKeyConfigured a;
     previewTaskId := previewTaskId a;
     polling := polling a;
     isCreating := isCreating a;
     requests := requests a;
     toasts := toasts a;
     console := console a;
     dialogs := dialogs a;
     timers := x;
     reloads := reloads a |}.

Definition set_reloads (x : nat) (a : app) : app :=
  {| tasks := tasks a;
     newTask := newTask a;
     imageInputModes := imageInputModes a;
     imagePreviews := imagePreviews a;
     refImageInputModes := refImageInputModes a;
     refImagePreviews := refImagePreviews a;
     showSettings := showSettings a;
     apiKey := apiKey a;
     apiKeyConfigured := apiKeyConfigured a;
     previewTaskId := previewTaskId a;
     polling := polling a;
     isCreating := isCreating a;
     requests := requests a;
     toasts := toasts a;
     console := console a;
     dialogs := dialogs a;
     timers := timers a;
     reloads := x |}.

Definition initial : app :=
  {| tasks := VArr [];
     newTask := default_draft;
     imageInputModes := ["url"; "url"];
     imagePreviews := [VNull; VNull];
     refImageInputModes := ["url"];
     refImagePreviews := [VNull];
     showSettings := false;
     apiKey := "";
     apiKeyConfigured := VBool false;
     previewTaskId := VNull;
     polling := VNull;
     isCreating := false;
     requests := [];
     toasts := [];
     console := [];
     dialogs := [];
     timers := [];
     reloads := 0 |}.

(** ** The monad of methods: state that survives a throw *)

Inductive result (A : Type) : Type :=
| Ok (x : A)
| Throw (e : error).
Arguments Ok {A} x.
Arguments Throw {A} e.

Definition M (A : Type) : Type := env -> app -> result A * app.

Definition ret {A} (x : A) : M A := fun _ a => (Ok x, a).

Definition bind {A B} (m : M A) (k : A -> M B) : M B :=
  fun en a =>
    match m en a with
    | (Ok x, a') => k x en a'
    | (Throw e, a') => (Throw e, a')
    end.

Definition throw {A} (e : error) : M A := fun _ a => (Throw e, a).

Definition get : M app := fun _ a => (Ok a, a).

Definition modify (f : app -> app) : M unit := fun _ a => (Ok tt, f a).

(** [try { m } catch (error) { h error }] *)
Definition try_catch {A} (m : M A) (h : error -> M A) : M A :=
  fun en a =>
    match m en a with
    | (Ok x, a') => (Ok x, a')
    | (Throw e, a') => h e en a'
    end.

(** [try { m } finally { f }] *)
Definition try_finally {A} (m : M A) (f : M unit) : M A :=
  fun en a =>
    match m en a with
    | (r, a') =>
        match f en a' with
        | (Ok _, a'') => (r, a'')
        | (Throw e, a'') => (Throw e, a'')
        end
    end.

Declare Scope js_scope.
Delimit Scope js_scope with js.
Notation "x <- m ;; k" := (bind m (fun x => k))
  (at level 100, m at next level, right associativity) : js_scope.
Notation "m ;; k" := (bind m (fun _ => k))
  (at level 100, right associativity) : js_scope.
Local Open Scope js_scope.

(** ** Primitives *)

(** [await axios.get/post/delete]: the request is recorded, then the
    backend's outcome resolves or is thrown. *)
Definition axios (q : request) : M response :=
  fun en a =>
    let a' := set_requests (requests a ++ [q]) a in
    match http en (List.length (requests a)) q with
    | Resolved r => (Ok r, a')
    | Rejected e => (Throw e, a')
    end.

Definition axios_get (u : string) : M response :=
  axios {| meth := GET; path := u; body := VUndefined |}.

Definition axios_post (u : string) (b : value) : M response :=
  axios {| meth := POST; path := u; body := b |}.

Definition axios_delete (u : string) : M response :=
  axios {| meth := DELETE; path := u; body := VUndefined |}.

Definition type_error (base k : string) : error :=
  {| response_data := None;
     message := "Cannot read properties of " ++ base ++ " (reading '" ++ k ++ "')" |}.

(** [v.k] for the keys read here ([tasks], [api_key_configured], [error]),
    which no string, number, boolean or array has. *)
Definition get_prop (v : value) (k : string) : M value :=
  match v with
  | VUndefined => throw (type_error "undefined" k)
  | VNull => throw (type_error "null" k)
  | VObj fields =>
      match lookup k fields with
      | Some x => ret x
      | None => ret VUndefined
      end
  | _ => ret VUndefined
  end.

(** [v?.k] *)
Definition opt_prop (v : value) (k : string) : value :=
  match v with
  | VObj fields =>
      match lookup k fields with
      | Some x => x
      | None => VUndefined
      end
  | _ => VUndefined
  end.

(** [error.response?.data?.error || error.message] *)
Definition error_detail (e : error) : value :=
  js_or
    (match response_data e with
     | Some d => opt_prop d "error"
     | None => VUndefined
     end)
    (VStr (message e)).

Definition console_error (label : string) (e : error) : M unit :=
  modify (fun a => set_console (console a ++ [(label, e)]) a).

Definition confirm_dialog (msg : string) : M bool :=
  fun en a =>
    (Ok (confirm en (List.length (dialogs a)) msg),
     set_dialogs (dialogs a ++ [msg]) a).

Definition setTimeout (t : timer) : M unit :=
  modify (fun a => set_timers (timers a ++ [t]) a).

Definition reload : M unit :=
  modify (fun a => set_reloads (S (reloads a)) a).

Definition success_toast (msg : string) : toast :=
  {| kind := Success; text := "✓ " ++ msg; dismiss_ms := 3000 |}.

Definition error_toast (msg : string) : toast :=
  {| kind := Failure; text := "✗ " ++ msg; dismiss_ms := 5000 |}.

Definition showSuccess (msg : string) : M unit :=
  modify (fun a => set_toasts (toasts a ++ [success_toast msg]) a).

Definition showError (msg : string) : M unit :=
  modify (fun a => set_toasts (toasts a ++ [error_toast msg]) a).

(** ** The methods *)

Definition loadTasks : M unit :=
  try_catch
    (response <- axios_get "/api/tasks";;
     t <- get_prop (data response) "tasks";;
     modify (set_tasks (js_or t (VArr []))))
    (fun error =>
       console_error "載入任務失敗:" error;;
       showError ("載入任務失敗: " ++ to_string (error_detail error))).

Definition image_entry (u : value) (role : string) : value :=
  VObj [("url", u); ("role", VStr role)].

(** The object [requestData] of the variant with image input. *)
Definition requestData (d : draft) : list (string * value) :=
  let fullPrompt := trim (prompt d) ++ " " ++ buildParameterString d in
  let base := [("prompt", VStr fullPrompt); ("imageMode", VStr (imageMode d))] in
  let image0 := nth 0 (images d) VUndefined in
  let image1 := nth 1 (images d) VUndefined in
  if imageMode d =? "first_frame" then
    if truthy image0
    then base ++ [("images", VArr [image_entry image0 "first_frame"])]
    else base
  else if imageMode d =? "first_last_frame" then
    let imgs :=
      ((if truthy image0 then [image_entry image0 "first_frame"] else [])
       ++ (if truthy image1 then [image_entry image1 "last_frame"] else []))%list in
    if (0 <? List.length imgs)%nat then base ++ [("images", VArr imgs)] else base
  else if imageMode d =? "reference" then
    let imgs :=
      map (fun img => image_entry (url img) "reference_image")
          (filter (fun img => truthy (url img)) (referenceImages d)) in
    if (0 <? List.length imgs)%nat then base ++ [("images", VArr imgs)] else base
  else base.

(** The form reset of the variant with image input. *)
Definition reset_form (a : app) : app :=
  set_refImagePreviews [VNull]
    (set_refImageInputModes ["url"]
       (set_imagePreviews [VNull; VNull]
          (set_imageInputModes ["url"; "url"]
             (set_newTask default_draft a)))).

(** [createTask] of the variant with image input. *)
Definition createTask : M unit :=
  a <- get;;
  if trim (prompt (newTask a)) =? "" then
    showError "請輸入提示詞"
  else if negb (truthy (apiKeyConfigured a)) then
    showError "請先配置 API Key";;
    modify (set_showSettings true)
  else
    modify (set_isCreating true);;
    try_finally
      (try_catch
         (a <- get;;
          _ <- axios_post "/api/tasks" (VObj (requestData (newTask a)));;
          modify reset_form;;
          loadTasks;;
          showSuccess "任務創建成功！")
         (fun error =>
            console_error "創建任務失敗:" error;;
            showError ("創建失敗: " ++ to_string (error_detail error))))
      (modify (set_isCreating false)).

(** The form reset of the variant that sends the prompt only: the six
    fields its draft has. *)
Definition reset_fields (d : draft) : draft :=
  {| prompt := "";
     imageMode := imageMode d;
     images := images d;
     referenceImages := referenceImages d;
     ratio := VStr "16:9";
     duration := VNum 5;
     resolution := VStr "720p";
     seed := VNull;
     camera_fixed := VBool false |}.

(** [createTask] of the variant that sends the prompt only. *)
Definition createTask_prompt_only : M unit :=
  a <- get;;
  if trim (prompt (newTask a)) =? "" then
    showError "請輸入提示詞"
  else if negb (truthy (apiKeyConfigured a)) then
    showError "請先配置 API Key";;
    modify (set_showSettings true)
  else
    modify (set_isCreating true);;
    try_finally
      (try_catch
         (a <- get;;
          let paramString := buildParameterString (newTask a) in
          let fullPrompt := trim (prompt (newTask a)) ++ " " ++ paramString in
          _ <- axios_post "/api/tasks" (VObj [("prompt", VStr fullPrompt)]);;
          modify (fun a => set_newTask (reset_fields (newTask a)) a);;
          loadTasks;;
          showSuccess "任務創建成功！")
         (fun error =>
            console_error "創建任務失敗:" error;;
            showError ("創建失敗: " ++ to_string (error_detail error))))
      (modify (set_isCreating false)).

Definition deleteTask (taskId : value) : M unit :=
  ok <- confirm_dialog "確定要刪除此任務嗎？";;
  if negb ok then ret tt
  else
    try_catch
      (_ <- axios_delete ("/api/tasks/" ++ to_string taskId);;
       loadTasks;;
       showSuccess "任務已刪除")
      (fun error =>
         console_error "刪除任務失敗:" error;;
         showError ("刪除失敗: " ++ to_string (error_detail error))).

Definition checkSettings : M unit :=
  try_catch
    (response <- axios_get "/api/settings";;
     v <- get_prop (data response) "api_key_configured";;
     modify (set_apiKeyConfigured (js_or v (VBool false)));;
     a <- get;;
     if negb (truthy (apiKeyConfigured a))
     then setTimeout (OpenSettings 1000)
     else ret tt)
    (fun error => console_error "檢查設置失敗:" error).

Definition newline : string := String (ascii_of_nat 10) "".

Definition reload_question : string :=
  "設置已保存！為了使更改生效，建議重啟應用程式。" ++ newline ++ newline
  ++ "是否要重新載入頁面？".

Definition saveSettings : M unit :=
  a <- get;;
  if trim (apiKey a) =? "" then
    showError "請輸入 API Key"
  else
    try_catch
      (_ <- axios_post "/api/settings" (VObj [("api_key", VStr (apiKey a))]);;
       modify (set_showSettings false);;
       modify (set_apiKey "");;
       modify (set_apiKeyConfigured (VBool true));;
       ok <- confirm_dialog reload_question;;
       if ok then reload else showSuccess "設置已保存")
      (fun error =>
         console_error "保存設置失敗:" error;;
         showError ("保存失敗: " ++ to_string (error_detail error))).

Definition refreshTasks : M unit :=
  loadTasks;;
  showSuccess "已刷新".

(** ** The methods of the image form, the preview and the status tables *)

Definition set_previewTaskId (x : value) (a : app) : app :=
  {| tasks := tasks a;
     newTask := newTask a;
     imageInputModes := imageInputModes a;
     imagePreviews := imagePreviews a;
     refImageInputModes := refImageInputModes a;
     refImagePreviews := refImagePreviews a;
     showSettings := showSettings a;
     apiKey := apiKey a;
     apiKeyConfigured := apiKeyConfigured a;
     previewTaskId := x;
     polling := polling a;
     isCreating := isCreating a;
     requests := requests a;
     toasts := toasts a;
     console := console a;
     dialogs := dialogs a;
     timers := timers a;
     reloads := reloads a |}.

Definition set_images (x : list value) (d : draft) : draft :=
  {| prompt := prompt d;
     imageMode := imageMode d;
     images := x;
     referenceImages := referenceImages d;
     ratio := ratio d;
     duration := duration d;
     resolution := resolution d;
     seed := seed d;
     camera_fixed := camera_fixed d |}.

Definition set_referenceImages (x : list refImage) (d : draft) : draft :=
  {| prompt := prompt d;
     imageMode := imageMode d;
     images := images d;
     referenceImages := x;
     ratio := ratio d;
     duration := duration d;
     resolution := resolution d;
     seed := seed d;
     camera_fixed := camera_fixed d |}.

(** [arr[i] = v] for an array index [i]: past the end the array grows, and
    the slots skipped read as [undefined]. *)
Fixpoint array_set {A} (hole : A) (l : list A) (i : nat) (v : A) : list A :=
  match i, l with
  | O, [] => [v]
  | O, _ :: rest => v :: rest
  | S i', [] => hole :: array_set hole [] i' v
  | S i', x :: rest => x :: array_set hole rest i' v
  end.

(** [arr.splice(i, 1)] for an integer [i]: a negative start counts from the
    end, and a start at or past the end removes nothing. *)
Definition splice_one {A} (l : list A) (i : Z) : list A :=
  let len := Z.of_nat (List.length l) in
  let start := if (i <? 0)%Z then Z.max (len + i) 0 else Z.min i len in
  (firstn (Z.to_nat start) l ++ skipn (S (Z.to_nat start)) l)%list.

(** What [event.target.files[0]] is: nothing, or a file, which is modelled
    by what the FileReader makes of it ([reader.result], or the value passed
    to [reject]). *)
Inductive read_outcome : Type :=
| Loaded (dataUrl : string)
| Failed (e : error).

Inductive chosen_file : Type :=
| NoFile
| File (read : read_outcome).

Definition fileToBase64 (read : read_outcome) : M string :=
  match read with
  | Loaded dataUrl => ret dataUrl
  | Failed e => throw e
  end.

Definition handleImageUpload (file : chosen_file) (index : nat) : M unit :=
  match file with
  | NoFile =>
      modify (fun a =>
        set_newTask (set_images (array_set VUndefined (images (newTask a)) index VNull)
                       (newTask a)) a);;
      modify (fun a =>
        set_imagePreviews (array_set VUndefined (imagePreviews a) index VNull) a)
  | File read =>
      try_catch
        (base64 <- fileToBase64 read;;
         modify (fun a =>
           set_newTask
             (set_images (array_set VUndefined (images (newTask a)) index (VStr base64))
                (newTask a)) a);;
         modify (fun a =>
           set_imagePreviews
             (array_set VUndefined (imagePreviews a) index (VStr base64)) a))
        (fun error =>
           console_error "處理圖片失敗:" error;;
           showError "處理圖片失敗")
  end.

Definition type_error_set (base k : string) : error :=
  {| response_data := None;
     message := "Cannot set properties of " ++ base ++ " (setting '" ++ k ++ "')" |}.

(** [l[i] = v] for a list known to hold position [i]. *)
Fixpoint list_update {A} (l : list A) (i : nat) (v : A) : list A :=
  match l, i with
  | [], _ => []
  | _ :: rest, O => v :: rest
  | x :: rest, S i' => x :: list_update rest i' v
  end.

(** [this.newTask.referenceImages[index].url = v]: a TypeError when there
    is no object at [index]. *)
Definition set_reference_url (index : nat) (v : value) : M unit :=
  a <- get;;
  match nth_error (referenceImages (newTask a)) index with
  | Some _ =>
      modify (fun a =>
        set_newTask
          (set_referenceImages
             (list_update (referenceImages (newTask a)) index {| url := v |})
             (newTask a)) a)
  | None => throw (type_error_set "undefined" "url")
  end.

Definition handleRefImageUpload (file : chosen_file) (index : nat) : M unit :=
  match file with
  | NoFile =>
      set_reference_url index VNull;;
      modify (fun a =>
        set_refImagePreviews (array_set VUndefined (refImagePreviews a) index VNull) a)
  | File read =>
      try_catch
        (base64 <- fileToBase64 read;;
         set_reference_url index (VStr base64);;
         modify (fun a =>
           set_refImagePreviews
             (array_set VUndefined (refImagePreviews a) index (VStr base64)) a))
        (fun error =>
           console_error "處理圖片失敗:" error;;
           showError "處理圖片失敗")
  end.

Definition addReferenceImage : M unit :=
  a <- get;;
  if (List.length (referenceImages (newTask a)) <? 4)%nat then
    modify (fun a =>
      set_newTask
        (set_referenceImages (referenceImages (newTask a) ++ [ {| url := VNull |} ])
           (newTask a)) a);;
    modify (fun a => set_refImageInputModes (refImageInputModes a ++ ["url"]) a);;
    modify (fun a => set_refImagePreviews (refImagePreviews a ++ [VNull]) a)
  else ret tt.

Definition removeReferenceImage (index : Z) : M unit :=
  a <- get;;
  if (1 <? List.length (referenceImages (newTask a)))%nat then
    modify (fun a =>
      set_newTask
        (set_referenceImages (splice_one (referenceImages (newTask a)) index)
           (newTask a)) a);;
    modify (fun a => set_refImageInputModes (splice_one (refImageInputModes a) index) a);;
    modify (fun a => set_refImagePreviews (splice_one (refImagePreviews a) index) a)
  else ret tt.

Definition previewVideo (taskId : value) : M unit :=
  modify (set_previewTaskId taskId).

(** The names every object literal inherits from [Object.prototype]. *)
Definition object_prototype_members : list string :=
  ["constructor"; "hasOwnProperty"; "isPrototypeOf"; "propertyIsEnumerable";
   "toLocaleString"; "toString"; "valueOf"; "__proto__";
   "__defineGetter__"; "__defineSetter__"; "__lookupGetter__"; "__lookupSetter__"].

(** What [table[status] || fallback] evaluates to: a value of the model, or
    the member of [Object.prototype] that the key names. *)
Inductive looked_up : Type :=
| Val (v : value)
| Inherited (name : string).

Definition table_or (table : list (string * value)) (status fallback : value)
  : looked_up :=
  let key := to_string status in
  match lookup key table with
  | Some v => Val (js_or v fallback)
  | None =>
      if existsb (String.eqb key) object_prototype_members
      then Inherited key
      else Val fallback
  end.

Definition colors : list (string * value) :=
  [("pending", VStr "bg-yellow-500");
   ("processing", VStr "bg-blue-500");
   ("completed", VStr "bg-green-500");
   ("failed", VStr "bg-red-500");
   ("cancelled", VStr "bg-gray-500")].

Definition getStatusColor (status : value) : looked_up :=
  table_or colors status (VStr "bg-gray-500").

Definition badges : list (string * value) :=
  [("pending", VStr "bg-yellow-100 text-yellow-800");
   ("processing", VStr "bg-blue-100 text-blue-800");
   ("completed", VStr "bg-green-100 text-green-800");
   ("failed", VStr "bg-red-100 text-red-800");
   ("cancelled", VStr "bg-gray-100 text-gray-800")].

Definition getStatusBadge (status : value) : looked_up :=
  table_or badges status (VStr "bg-gray-100 text-gray-800").

Definition texts : list (string * value) :=
  [("pending", VStr "⏳ 等待中");
   ("processing", VStr "🔄 生成中");
   ("completed", VStr "✅ 已完成");
   ("failed", VStr "❌ 失敗");
   ("cancelled", VStr "🚫 已取消")].

Definition getStatusText (status : value) : looked_up :=
  table_or texts status status.

(** ** Vocabulary of the specification

    The definitions below do not come from the source: they name what the
    specification talks about, so that the methods can be compared with it. *)

(** The six flags of the parameter string, in the order the specification
    fixes. *)
Inductive flag : Type := RT | DUR | FPS | RS | SEED | CF.

Definition flag_order : list flag := [RT; DUR; FPS; RS; SEED; CF].

(** The token the specification gives each flag. *)
Definition spec_token (d : draft) (f : flag) : string :=
  match f with
  | RT => "--rt " ++ to_string (ratio d)
  | DUR => "--dur " ++ to_string (duration d)
  | FPS => "--fps 24"
  | RS => "--rs " ++ to_string (resolution d)
  | SEED => "--seed " ++ to_string (seed d)
  | CF => "--cf " ++ (if truthy (camera_fixed d) then "true" else "false")
  end.

(** Whether the specification lists the flag for draft [d]. *)
Definition spec_present (d : draft) (f : flag) : bool :=
  match f with
  | RT => truthy (ratio d)
  | DUR => truthy (duration d)
  | FPS => true
  | RS => truthy (resolution d)
  | SEED =>
      match seed d with
      | VNull => false
      | VStr s => negb (s =? "")
      | _ => true
      end
  | CF => true
  end.

Definition spec_parameter_string (d : draft) : string :=
  String.concat " " (map (spec_token d) (filter (spec_present d) flag_order)).

(** [t] occurs in [s]; [s] ends with [t]. *)
Definition contains (s t : string) : Prop := exists pre post, s = pre ++ t ++ post.
Definition ends_with (s t : string) : Prop := exists pre, s = pre ++ t.

(** The six fields of the draft at their defaults. *)
Definition draft_is_default (d : draft) : Prop :=
  ratio d = VStr "16:9" /\ duration d = VNum 5 /\ resolution d = VStr "720p"
  /\ seed d = VNull /\ camera_fixed d = VBool false /\ prompt d = "".

(** Running a method: what it returns and the component afterwards. *)
Definition returned (m : M unit) (en : env) (a : app) : result unit := fst (m en a).
Definition after (m : M unit) (en : env) (a : app) : app := snd (m en a).

(** The method returned normally, issued no request and showed the error
    toast [msg]. *)
Definition blocked_with (m : M unit) (en : env) (a : app) (msg : string) : Prop :=
  returned m en a = Ok tt
  /\ requests (after m en a) = requests a
  /\ toasts (after m en a) = (toasts a ++ [error_toast msg])%list.

(** The method returned normally and showed the error toast [msg]. *)
Definition caught_with_toast (m : M unit) (en : env) (a : app) (msg : string) : Prop :=
  returned m en a = Ok tt
  /\ toasts (after m en a) = (toasts a ++ [error_toast msg])%list.

(** The outcome of the request [q] when the method starts from [a] and [q]
    is the first request it issues. *)
Definition first_outcome (en : env) (a : app) (q : request) : outcome :=
  http en (List.length (requests a)) q.

(** The [prompt] field of the body posted to [/api/tasks] as the first
    request issued after [before]. *)
Definition posted_prompt (before later : app) : option value :=
  match nth_error (requests later) (List.length (requests before)) with
  | Some q =>
      match meth q, body q with
      | POST, VObj fields =>
          if path q =? "/api/tasks" then lookup "prompt" fields else None
      | _, _ => None
      end
  | None => None
  end.

Definition get_tasks : request :=
  {| meth := GET; path := "/api/tasks"; body := VUndefined |}.
Definition get_settings : request :=
  {| meth := GET; path := "/api/settings"; body := VUndefined |}.
Definition post_task (b : list (string * value)) : request :=
  {| meth := POST; path := "/api/tasks"; body := VObj b |}.
Definition post_settings (key : string) : request :=
  {| meth := POST; path := "/api/settings"; body := VObj [("api_key", VStr key)] |}.
Definition delete_task (taskId : value) : request :=
  {| meth := DELETE; path := "/api/tasks/" ++ to_string taskId; body := VUndefined |}.

Definition delete_question : string := "確定要刪除此任務嗎？".

(** The body posted by the variant that sends the prompt only, and its
    form reset, named for the statements below. *)
Definition prompt_only_body (d : draft) : list (string * value) :=
  [("prompt", VStr (trim (prompt d) ++ " " ++ buildParameterString d))].

Definition reset_prompt_only (a : app) : app :=
  set_newTask (reset_fields (newTask a)) a.

(** The component when [createTask] returns after its POST resolved:
    [reset] is the variant's form reset. *)
Definition created (reset : app -> app) (q : request) (en : env) (a : app) : app :=
  let a1 := reset (set_requests (requests a ++ [q]) (set_isCreating true a)) in
  let a2 := after loadTasks en a1 in
  set_isCreating false (set_toasts (toasts a2 ++ [success_toast "任務創建成功！"]) a2).

(** The component when [createTask] returns after its POST rejected. *)
Definition create_failed (q : request) (e : error) (a : app) : app :=
  set_isCreating false
    (set_toasts (toasts a ++ [error_toast ("創建失敗: " ++ to_string (error_detail e))])
       (set_console (console a ++ [("創建任務失敗:", e)])
          (set_requests (requests a ++ [q]) (set_isCreating true a)))).

(** ** Runs of the component

    A call of one of the methods modelled above; both variants of
    [createTask] are listed, so that a run of either client is a run here. *)
Inductive action : Type :=
| DoLoadTasks
| DoRefreshTasks
| DoCreateTask
| DoCreateTaskPromptOnly
| DoDeleteTask (taskId : value)
| DoCheckSettings
| DoSaveSettings
| DoPreviewVideo (taskId : value)
| DoAddReferenceImage
| DoRemoveReferenceImage (index : Z)
| DoImageUpload (file : chosen_file) (index : nat)
| DoRefImageUpload (file : chosen_file) (index : nat).

Definition perform (act : action) : M unit :=
  match act with
  | DoLoadTasks => loadTasks
  | DoRefreshTasks => refreshTasks
  | DoCreateTask => createTask
  | DoCreateTaskPromptOnly => createTask_prompt_only
  | DoDeleteTask taskId => deleteTask taskId
  | DoCheckSettings => checkSettings
  | DoSaveSettings => saveSettings
  | DoPreviewVideo taskId => previewVideo taskId
  | DoAddReferenceImage => addReferenceImage
  | DoRemoveReferenceImage index => removeReferenceImage index
  | DoImageUpload file index => handleImageUpload file index
  | DoRefImageUpload file index => handleRefImageUpload file index
  end.

(** The component after the calls [acts], one after the other; a call that
    throws leaves the component as it was at the throw. *)
Fixpoint run (acts : list action) (en : env) (a : app) : app :=
  match acts with
  | [] => a
  | act :: rest => run rest en (after (perform act) en a)
  end.

(** The three arrays of the reference-image form are in step and hold
    between one and four entries. *)
Definition ref_form_ok (a : app) : Prop :=
  List.length (refImageInputModes a) = List.length (referenceImages (newTask a))
  /\ List.length (refImagePreviews a) = List.length (referenceImages (newTask a))
  /\ (1 <= List.length (referenceImages (newTask a)) <= 4)%nat.

(** A success toast stays 3 s, an error toast 5 s. *)
Definition toast_timed (t : toast) : Prop :=
  match kind t with
  | Success => dismiss_ms t = 3000%Z
  | Failure => dismiss_ms t = 5000%Z
  end.

(** The calls that do not touch the form: neither the draft nor the busy
    flag. *)
Definition leaves_form (act : action) : bool :=
  match act with
  | DoLoadTasks | DoRefreshTasks | DoDeleteTask _ | DoCheckSettings
  | DoSaveSettings | DoPreviewVideo _ => true
  | _ => false
  end.

(** The calls that work on the page only. *)
Definition local_action (act : action) : bool :=
  match act with
  | DoPreviewVideo _ | DoAddReferenceImage | DoRemoveReferenceImage _
  | DoImageUpload _ _ | DoRefImageUpload _ _ => true
  | _ => false
  end.

(** The colour family a status is shown in. *)
Definition status_hue (status : value) : string :=
  let key := to_string status in
  if "pending" =? key then "yellow"
  else if "processing" =? key then "blue"
  else if "completed" =? key then "green"
  else if "failed" =? key then "red"
  else "gray".

Definition known_status (status : value) : bool :=
  existsb (String.eqb (to_string status))
    ["pending"; "processing"; "completed"; "failed"; "cancelled"].

(** The image entries the specification's interface allows for a mode. *)
Definition image_roles (mode : string) : list string :=
  if mode =? "first_frame" then ["first_frame"]
  else if mode =? "first_last_frame" then ["first_frame"; "last_frame"]
  else if mode =? "reference" then ["reference_image"]
  else [].

Definition entry_ok (roles : list string) (entry : value) : Prop :=
  exists u role,
    entry = image_entry u role /\ truthy u = true /\ In role roles.

(** A computation keeps [P]; a computation lets no exception escape. *)
Definition preserves {A} (P : app -> Prop) (m : M A) : Prop :=
  forall en a, P a -> P (snd (m en a)).


(** ** Sample surroundings and components *)

Definition network_error : error :=
  {| response_data := None; message := "Network Error" |}.

Definition server_error : error :=
  {| response_data := Some (VObj [("error", VStr "quota exceeded")]);
     message := "Request failed with status code 500" |}.

Definition backend_down : env :=
  {| http := fun _ _ => Rejected network_error; confirm := fun _ _ => true |}.

Definition backend_failing : env :=
  {| http := fun _ _ => Rejected server_error; confirm := fun _ _ => true |}.

Definition sample_task : value :=
  VObj [("id", VStr "t1"); ("status", VStr "completed")].

Definition backend_up : env :=
  {| http := fun _ _ => Resolved {| data := VObj [("tasks", VArr [sample_task])] |};
     confirm := fun _ _ => true |}.

Definition backend_without_tasks : env :=
  {| http := fun _ _ => Resolved {| data := VObj [("ok", VBool true)] |};
     confirm := fun _ _ => true |}.

Definition backend_null_body : env :=
  {| http := fun _ _ => Resolved {| data := VNull |}; confirm := fun _ _ => true |}.

Definition backend_odd_tasks : env :=
  {| http := fun _ _ => Resolved {| data := VObj [("tasks", VStr "oops")] |};
     confirm := fun _ _ => true |}.

Definition user_declines : env :=
  {| http := fun _ _ => Resolved {| data := VObj [] |}; confirm := fun _ _ => false |}.

Definition portrait_draft (p : string) : draft :=
  {| prompt := p;
     imageMode := "none";
     images := [VNull; VNull];
     referenceImages := [ {| url := VNull |} ];
     ratio := VStr "9:16";
     duration := VNum 3;
     resolution := VStr "1080p";
     seed := VNull;
     camera_fixed := VBool true |}.

(** A draft in first-frame mode with no image chosen yet and a duration
    of 0. *)
Definition first_frame_draft (p : string) : draft :=
  {| prompt := p;
     imageMode := "first_frame";
     images := [VNull; VNull];
     referenceImages := [ {| url := VNull |} ];
     ratio := VStr "16:9";
     duration := VNum 0;
     resolution := VStr "720p";
     seed := VNum 0;
     camera_fixed := VBool false |}.

(** A component with one cached task, a configured key and draft [d]. *)
Definition loaded (d : draft) : app :=
  set_newTask d (set_apiKeyConfigured (VBool true) (set_tasks (VArr [sample_task]) initial)).

(** * Properties *)

(** ** Strings and [trim] *)

Section Strings.

Lemma append_empty_r (s : string) : s ++ "" = s.
Proof. induction s as [|c s IH]; simpl; [reflexivity | now rewrite IH]. Qed.

Lemma append_assoc (a b c : string) : (a ++ b) ++ c = a ++ b ++ c.
Proof. induction a as [|x a IH]; simpl; [reflexivity | now rewrite IH]. Qed.

Lemma length_append (a b : string) :
  String.length (a ++ b) = (String.length a + String.length b)%nat.
Proof. induction a as [|x a IH]; simpl; [reflexivity | now rewrite IH]. Qed.

Lemma list_ascii_append (a b : string) :
  list_ascii_of_string (a ++ b)
  = (list_ascii_of_string a ++ list_ascii_of_string b)%list.
Proof. induction a as [|x a IH]; simpl; [reflexivity | now rewrite IH]. Qed.

Lemma string_of_list_app (l m : list ascii) :
  string_of_list_ascii (l ++ m) = string_of_list_ascii l ++ string_of_list_ascii m.
Proof. induction l as [|x l IH]; simpl; [reflexivity | now rewrite IH]. Qed.

Lemma rev_string_append (a b : string) :
  rev_string (a ++ b) = rev_string b ++ rev_string a.
Proof.
  unfold rev_string.
  now rewrite list_ascii_append, rev_app_distr, string_of_list_app.
Qed.

Lemma rev_string_involutive (s : string) : rev_string (rev_string s) = s.
Proof.
  unfold rev_string.
  rewrite list_ascii_of_string_of_list_ascii, rev_involutive.
  apply string_of_list_ascii_of_string.
Qed.

Lemma strip_prefix_Some (p s r : string) :
  strip_prefix p s = Some r -> s = p ++ r.
Proof.
  revert s; induction p as [|a p IH]; intros s H; simpl in *.
  - now inversion H.
  - destruct s as [|b s]; [discriminate|].
    destruct (Ascii.eqb_spec a b) as [->|]; [|discriminate].
    now rewrite (IH _ H).
Qed.

Lemma strip_any_Some (ps : list string) (s r : string) :
  strip_any ps s = Some r -> exists p, In p ps /\ s = p ++ r.
Proof.
  induction ps as [|p ps IH]; simpl; [discriminate|].
  destruct (strip_prefix p s) as [r'|] eqn:E.
  - intros [= ->]. exists p. split; [now left | now apply strip_prefix_Some].
  - intros H. destruct (IH H) as [q [Hq Hs]]. exists q. auto.
Qed.

Lemma made_of_append (ps : list string) (x y : string) :
  made_of ps x -> made_of ps y -> made_of ps (x ++ y).
Proof.
  induction 1 as [|p s Hp Hs IH]; intros Hy; simpl; [assumption|].
  rewrite append_assoc. constructor; auto.
Qed.

Lemma made_of_one (ps : list string) (p : string) : In p ps -> made_of ps p.
Proof.
  intros H. rewrite <- (append_empty_r p). constructor; [assumption | constructor].
Qed.

(** What [strip_all] removes is a concatenation of members of [ps]. *)
Lemma strip_all_split (fuel : nat) (ps : list string) (s : string) :
  exists pre, made_of ps pre /\ s = pre ++ strip_all fuel ps s.
Proof.
  revert s; induction fuel as [|fuel IH]; intros s; simpl.
  - exists "". split; [constructor | reflexivity].
  - destruct (strip_any ps s) as [r|] eqn:E.
    + destruct (strip_any_Some _ _ _ E) as [p [Hp ->]].
      destruct (IH r) as [pre [Hpre Hr]].
      exists (p ++ pre). split; [now constructor|].
      now rewrite append_assoc, <- Hr.
    + exists "". split; [constructor | reflexivity].
Qed.

Lemma made_of_rev (ps : list string) (x : string) :
  made_of (map rev_string ps) x -> made_of ps (rev_string x).
Proof.
  induction 1 as [|p s Hp Hs IH]; [constructor|].
  rewrite rev_string_append. apply made_of_append; [assumption|].
  apply in_map_iff in Hp. destruct Hp as [q [<- Hq]].
  rewrite rev_string_involutive. now apply made_of_one.
Qed.

(** Each white-space code is stripped as a whole, and is not empty. *)
Lemma strip_any_white_space (w s : string) :
  In w white_space ->
  strip_any white_space (w ++ s) = Some s /\ (1 <= String.length w)%nat.
Proof.
  intros H. unfold white_space in H. simpl in H.
  repeat (destruct H as [<-|H]; [split; [reflexivity | simpl; lia]|]).
  contradiction.
Qed.

Lemma strip_all_blank (s : string) :
  blank s ->
  forall fuel, (String.length s <= fuel)%nat -> strip_all fuel white_space s = "".
Proof.
  induction 1 as [|w s Hw Hs IH]; intros fuel Hf.
  - destruct fuel; reflexivity.
  - destruct (strip_any_white_space w s Hw) as [E L].
    rewrite length_append in Hf.
    destruct fuel as [|fuel]; [lia|].
    cbn [strip_all]. rewrite E. apply IH. lia.
Qed.

(** [trim] returns the empty string exactly on blank strings. *)
Lemma trim_empty_iff (s : string) : trim s = "" <-> blank s.
Proof.
  split.
  - unfold trim, trimEnd, trimStart. intros H.
    destruct (strip_all_split (String.length s) white_space s) as [pre [Hpre Hs]].
    set (r := strip_all (String.length s) white_space s) in *.
    destruct (strip_all_split (String.length r) (map rev_string white_space)
                (rev_string r)) as [post [Hpost Hr]].
    set (t := strip_all _ _ (rev_string r)) in *.
    assert (Ht : t = "").
    { rewrite <- (rev_string_involutive t), H. reflexivity. }
    rewrite Ht, append_empty_r in Hr.
    rewrite Hs. apply made_of_append; [assumption|].
    rewrite <- (rev_string_involutive r), Hr. now apply made_of_rev.
  - intros H. unfold trim, trimStart.
    now rewrite (strip_all_blank s H (String.length s) (le_n _)).
Qed.

Lemma trim_eqb_blank (s : string) : blank s -> (trim s =? "") = true.
Proof. intros H. apply String.eqb_eq. now apply trim_empty_iff. Qed.

Lemma trim_eqb_not_blank (s : string) : ~ blank s -> (trim s =? "") = false.
Proof.
  intros H. apply String.eqb_neq. intros E. apply H. now apply trim_empty_iff.
Qed.

End Strings.

(** ** The parameter string *)

Section ParameterString.

Lemma concat_contains (sep : string) (l : list string) (t : string) :
  In t l -> contains (String.concat sep l) t.
Proof.
  induction l as [|x xs IH]; intros H; [contradiction|].
  destruct H as [->|H].
  - destruct xs as [|y ys].
    + exists "", "". simpl. now rewrite append_empty_r.
    + exists "", (sep ++ String.concat sep (y :: ys)). reflexivity.
  - destruct xs as [|y ys]; [contradiction|].
    destruct (IH H) as [pre [post E]].
    exists (x ++ sep ++ pre), post.
    change (String.concat sep (x :: y :: ys))
      with (x ++ sep ++ String.concat sep (y :: ys)).
    now rewrite E, !append_assoc.
Qed.

Lemma concat_ends_with (sep : string) (l : list string) (t : string) :
  ends_with (String.concat sep (l ++ [t])) t.
Proof.
  induction l as [|x xs IH].
  - exists "". reflexivity.
  - destruct IH as [pre E]. cbn [Datatypes.app].
    destruct (xs ++ [t])%list as [|y ys] eqn:L.
    + now destruct xs.
    + exists (x ++ sep ++ pre).
      change (String.concat sep (x :: y :: ys))
        with (x ++ sep ++ String.concat sep (y :: ys)).
      now rewrite E, !append_assoc.
Qed.

(** The array built by the code is the specification's list of present
    tokens. *)
Lemma params_spec (d : draft) :
  params d = map (spec_token d) (filter (spec_present d) flag_order).
Proof.
  destruct d as [p im imgs refs r du rs sd cf].
  unfold params, flag_order.
  cbn [filter spec_present ratio duration resolution seed camera_fixed].
  destruct (truthy r), (truthy du), (truthy rs);
    destruct sd as [| |b|z|s|l|f]; cbn;
    try destruct (s =? ""); reflexivity.
Qed.

Lemma params_last (d : draft) :
  exists front, params d = (front ++ [spec_token d CF])%list.
Proof.
  unfold params. eexists. rewrite !app_assoc. reflexivity.
Qed.

Lemma seed_omitted_iff (d : draft) :
  spec_present d SEED = false <-> seed d = VNull \/ seed d = VStr "".
Proof.
  unfold spec_present.
  destruct (seed d) as [| |b|z|s|l|f]; split; intros H;
    try discriminate; try (destruct H; discriminate); auto.
  - destruct (String.eqb_spec s ""); [subst; auto | discriminate].
  - destruct H as [H|H]; [discriminate|]. now inversion H.
Qed.

Lemma seed_token_in_params (d : draft) :
  In ("--seed " ++ to_string (seed d)) (params d) <-> spec_present d SEED = true.
Proof.
  rewrite params_spec. unfold flag_order. cbn [filter spec_present].
  split.
  - destruct (truthy (ratio d)), (truthy (duration d)), (truthy (resolution d));
      destruct (match seed d with VNull => false | VStr s => negb (s =? "") | _ => true end);
      cbn; intros H; auto;
      repeat (destruct H as [H|H]; [discriminate H|]); contradiction.
  - intros ->.
    destruct (truthy (ratio d)), (truthy (duration d)), (truthy (resolution d));
      cbn; auto 10.
Qed.

End ParameterString.

(** C1. For every draft, [buildParameterString] returns the present flag
    tokens in the fixed order [--rt, --dur, --fps, --rs, --seed, --cf] joined
    by single spaces; the string always contains [--fps 24]; its last token is
    [--cf true] or [--cf false] according to the [camera_fixed] boolean; and
    the [--seed] token is left out exactly when [seed] is [null] or the empty
    string. *)
Theorem buildParameterString_contract (d : draft) :
  buildParameterString d = spec_parameter_string d
  /\ In "--fps 24" (params d)
  /\ contains (buildParameterString d) "--fps 24"
  /\ (exists front, params d = (front ++ [spec_token d CF])%list)
  /\ (forall b : bool,
        camera_fixed d = VBool b ->
        spec_token d CF = (if b then "--cf true" else "--cf false")
        /\ ends_with (buildParameterString d)
             (if b then "--cf true" else "--cf false"))
  /\ (~ In ("--seed " ++ to_string (seed d)) (params d)
      <-> seed d = VNull \/ seed d = VStr "").
Proof.
  assert (Hfps : In "--fps 24" (params d)).
  { unfold params. apply in_or_app. right. apply in_or_app. right. now left. }
  repeat split.
  - unfold buildParameterString, spec_parameter_string. now rewrite params_spec.
  - exact Hfps.
  - apply concat_contains. exact Hfps.
  - apply params_last.
  - unfold spec_token. rewrite H. now destruct b.
  - destruct (params_last d) as [front E].
    unfold buildParameterString. rewrite E.
    replace (if b then "--cf true" else "--cf false") with (spec_token d CF)
      by (unfold spec_token; rewrite H; now destruct b).
    apply concat_ends_with.
  - intros H. apply seed_omitted_iff.
    destruct (spec_present d SEED) eqn:E; [|reflexivity].
    exfalso. apply H. now apply seed_token_in_params.
  - intros H Hin. apply seed_omitted_iff in H.
    apply seed_token_in_params in Hin. congruence.
Qed.

Lemma buildParameterString_contract_witness :
  ends_with (buildParameterString (portrait_draft "a cat")) "--cf true"
  /\ ~ In "--seed null" (params (portrait_draft "a cat")).
Proof.
  destruct (buildParameterString_contract (portrait_draft "a cat"))
    as (_ & _ & _ & _ & Hcf & Hseed).
  split.
  - exact (proj2 (Hcf true eq_refl)).
  - apply (proj2 Hseed). left. reflexivity.
Defined.

(** C8. The draft with ratio 9:16, duration 3, resolution 1080p, seed null
    and camera_fixed true gives exactly
    [--rt 9:16 --dur 3 --fps 24 --rs 1080p --cf true]. *)
Theorem buildParameterString_example
    (p im : string) (imgs : list value) (refs : list refImage) :
  buildParameterString
    {| prompt := p; imageMode := im; images := imgs; referenceImages := refs;
       ratio := VStr "9:16"; duration := VNum 3; resolution := VStr "1080p";
       seed := VNull; camera_fixed := VBool true |}
  = "--rt 9:16 --dur 3 --fps 24 --rs 1080p --cf true".
Proof. reflexivity. Qed.

(** ** Running the methods *)

Arguments trim : simpl never.
Arguments to_string : simpl never.
Arguments error_detail : simpl never.
Arguments buildParameterString : simpl never.
Arguments requestData : simpl never.
Arguments append : simpl never.

Ltac unfold_monad :=
  unfold returned, after, first_outcome, bind, try_catch, try_finally, ret,
    throw, get, modify, axios_get, axios_post, axios_delete, axios,
    console_error, showError, showSuccess, confirm_dialog, setTimeout, reload,
    get_prop in *.

Section LoadTasks.

Variables (en : env) (a : app).

(** [loadTasks] never throws, always issues its one request, and touches
    nothing but the cache and the traces. *)
Lemma loadTasks_frame :
  returned loadTasks en a = Ok tt
  /\ requests (after loadTasks en a) = (requests a ++ [get_tasks])%list
  /\ newTask (after loadTasks en a) = newTask a
  /\ isCreating (after loadTasks en a) = isCreating a
  /\ showSettings (after loadTasks en a) = showSettings a
  /\ apiKeyConfigured (after loadTasks en a) = apiKeyConfigured a
  /\ dialogs (after loadTasks en a) = dialogs a.
Proof.
  unfold loadTasks, get_tasks. unfold_monad.
  destruct (http en _ _) as [[d]|e]; cbn.
  - destruct d as [| |b|z|s|l|f]; cbn; try (repeat split; reflexivity).
    destruct (lookup "tasks" f); cbn; repeat split; reflexivity.
  - repeat split; reflexivity.
Qed.

Lemma loadTasks_rejected (e : error) :
  first_outcome en a get_tasks = Rejected e ->
  loadTasks en a
  = (Ok tt,
     set_toasts
       (toasts a ++ [error_toast ("載入任務失敗: " ++ to_string (error_detail e))])
       (set_console (console a ++ [("載入任務失敗:", e)])
          (set_requests (requests a ++ [get_tasks]) a))).
Proof.
  unfold loadTasks, get_tasks. unfold_monad. intros ->. reflexivity.
Qed.

Lemma loadTasks_resolved_object (fields : list (string * value)) :
  first_outcome en a get_tasks = Resolved {| data := VObj fields |} ->
  loadTasks en a
  = (Ok tt,
     set_tasks
       (js_or (match lookup "tasks" fields with
               | Some t => t
               | None => VUndefined
               end) (VArr []))
       (set_requests (requests a ++ [get_tasks]) a)).
Proof.
  unfold loadTasks, get_tasks. unfold_monad. intros ->. cbn.
  destruct (lookup "tasks" fields); reflexivity.
Qed.

End LoadTasks.

Section LoadTasksResolved.

Variables (en : env) (a : app) (d : value).

Hypothesis resolved : first_outcome en a get_tasks = Resolved {| data := d |}.

(** A body that is [null] or [undefined]: reading [.tasks] throws inside
    the [try] block. *)
Lemma loadTasks_resolved_nullish :
  d = VNull \/ d = VUndefined ->
  loadTasks en a
  = (Ok tt,
     set_toasts
       (toasts a
        ++ [error_toast
              ("載入任務失敗: "
               ++ to_string (error_detail (type_error (to_string d) "tasks")))])
       (set_console
          (console a ++ [("載入任務失敗:", type_error (to_string d) "tasks")])
          (set_requests (requests a ++ [get_tasks]) a))).
Proof.
  revert resolved. unfold loadTasks, get_tasks. unfold_monad.
  intros -> [->| ->]; reflexivity.
Qed.

(** Any other body: the cache becomes [response.data.tasks || []]. *)
Lemma loadTasks_resolved_value :
  d <> VNull -> d <> VUndefined ->
  loadTasks en a
  = (Ok tt,
     set_tasks (js_or (opt_prop d "tasks") (VArr []))
       (set_requests (requests a ++ [get_tasks]) a)).
Proof.
  revert resolved. unfold loadTasks, get_tasks. unfold_monad.
  intros -> N U. destruct d as [| |b|z|s|l|f]; try contradiction; cbn;
    try reflexivity.
  unfold opt_prop. destruct (lookup "tasks" f); reflexivity.
Qed.

End LoadTasksResolved.

(** C2. If the GET request of [loadTasks] rejects, the tasks cache is what
    it was before the call, and an error toast is shown. *)
Theorem loadTasks_failure_keeps_cache (en : env) (a : app) (e : error) :
  first_outcome en a get_tasks = Rejected e ->
  returned loadTasks en a = Ok tt
  /\ tasks (after loadTasks en a) = tasks a
  /\ toasts (after loadTasks en a)
     = (toasts a
        ++ [error_toast ("載入任務失敗: " ++ to_string (error_detail e))])%list.
Proof.
  intros H. unfold returned, after. rewrite (loadTasks_rejected en a e H).
  repeat split; reflexivity.
Qed.

Lemma loadTasks_failure_keeps_cache_witness :
  tasks (after loadTasks backend_failing (loaded default_draft)) = VArr [sample_task]
  /\ toasts (after loadTasks backend_failing (loaded default_draft))
     = [error_toast "載入任務失敗: quota exceeded"].
Proof.
  destruct (loadTasks_failure_keeps_cache backend_failing (loaded default_draft)
              server_error eq_refl) as (_ & Ht & Hs).
  split; [exact Ht | exact Hs].
Defined.

(** C10, as stated, fails: a GET that resolves with a [null] body (which
    has no [tasks] field) leaves the cache as it was, and one that resolves
    with a truthy [tasks] that is not an array stores that value, not the
    empty list. *)
Lemma loadTasks_success_not_always_replaced :
  first_outcome backend_null_body (loaded default_draft) get_tasks
  = Resolved {| data := VNull |}
  /\ tasks (after loadTasks backend_null_body (loaded default_draft))
     = VArr [sample_task]
  /\ tasks (after loadTasks backend_null_body (loaded default_draft)) <> VArr []
  /\ first_outcome backend_odd_tasks (loaded default_draft) get_tasks
     = Resolved {| data := VObj [("tasks", VStr "oops")] |}
  /\ tasks (after loadTasks backend_odd_tasks (loaded default_draft))
     = VStr "oops".
Proof.
  repeat split; try reflexivity. intros H. vm_compute in H. discriminate H.
Qed.

(** C10, amended. If the GET request of [loadTasks] resolves with a body
    other than [null] or [undefined] that has no [tasks] field, or a falsy
    one, the cache becomes the empty list and is not left unchanged; in
    general, after such a response the cache is the body's [tasks] when that
    value is truthy (an array, the empty array included, or any other truthy
    value) and the empty list otherwise, and no toast is shown.  If the body
    is [null] or [undefined], reading its [tasks] throws inside the [try]
    block: the cache is left unchanged and an error toast is shown. *)
Theorem loadTasks_resolved_cache (en : env) (a : app) (d : value) :
  first_outcome en a get_tasks = Resolved {| data := d |} ->
  returned loadTasks en a = Ok tt
  /\ (d = VNull \/ d = VUndefined ->
      tasks (after loadTasks en a) = tasks a
      /\ toasts (after loadTasks en a)
         = (toasts a
            ++ [error_toast
                  ("載入任務失敗: "
                   ++ to_string (error_detail (type_error (to_string d) "tasks")))])%list)
  /\ (d <> VNull -> d <> VUndefined ->
      toasts (after loadTasks en a) = toasts a
      /\ (truthy (opt_prop d "tasks") = false ->
            tasks (after loadTasks en a) = VArr [])
      /\ (truthy (opt_prop d "tasks") = true ->
            tasks (after loadTasks en a) = opt_prop d "tasks"))
  /\ (forall fields,
        d = VObj fields ->
        (lookup "tasks" fields = None -> tasks (after loadTasks en a) = VArr [])
        /\ (forall t, lookup "tasks" fields = Some t -> truthy t = false ->
                      tasks (after loadTasks en a) = VArr [])
        /\ (forall t, lookup "tasks" fields = Some t -> truthy t = true ->
                      tasks (after loadTasks en a) = t)
        /\ (forall l, lookup "tasks" fields = Some (VArr l) ->
                      tasks (after loadTasks en a) = VArr l))
  /\ (d <> VNull -> d <> VUndefined -> (forall fields, d <> VObj fields) ->
      tasks (after loadTasks en a) = VArr []).
Proof.
  intros H. unfold returned, after.
  split; [|split; [|split; [|split]]].
  - destruct d as [| |b|z|s|l|f];
      first [ rewrite (loadTasks_resolved_nullish en a _ H) by auto
            | rewrite (loadTasks_resolved_value en a _ H) by discriminate ];
      reflexivity.
  - intros N. rewrite (loadTasks_resolved_nullish en a d H N).
    split; reflexivity.
  - intros N U. rewrite (loadTasks_resolved_value en a d H N U). cbn [snd].
    unfold js_or. repeat split.
    + intros ->. reflexivity.
    + intros ->. reflexivity.
  - intros fields ->.
    rewrite (loadTasks_resolved_value en a _ H) by discriminate.
    cbn [snd]. unfold opt_prop, js_or. cbn [tasks set_tasks].
    repeat split.
    + intros ->. reflexivity.
    + intros t -> ->. reflexivity.
    + intros t -> ->. reflexivity.
    + intros l ->. reflexivity.
  - intros N U O. rewrite (loadTasks_resolved_value en a d H N U).
    destruct d as [| |b|z|s|l|f]; try contradiction; try reflexivity.
    now elim (O f).
Qed.

Lemma loadTasks_resolved_cache_witness :
  tasks (after loadTasks backend_without_tasks (loaded default_draft)) = VArr []
  /\ tasks (after loadTasks backend_up initial) = VArr [sample_task]
  /\ tasks (after loadTasks backend_null_body (loaded default_draft))
     = VArr [sample_task]
  /\ tasks (after loadTasks backend_odd_tasks (loaded default_draft))
     = VStr "oops".
Proof.
  split; [|split; [|split]].
  - destruct (loadTasks_resolved_cache backend_without_tasks
                (loaded default_draft) (VObj [("ok", VBool true)]) eq_refl)
      as (_ & _ & _ & Hobj & _).
    exact (proj1 (Hobj _ eq_refl) eq_refl).
  - destruct (loadTasks_resolved_cache backend_up initial
                (VObj [("tasks", VArr [sample_task])]) eq_refl)
      as (_ & _ & _ & Hobj & _).
    destruct (Hobj _ eq_refl) as (_ & _ & _ & Harr).
    exact (Harr [sample_task] eq_refl).
  - destruct (loadTasks_resolved_cache backend_null_body
                (loaded default_draft) VNull eq_refl) as (_ & Hnull & _).
    exact (proj1 (Hnull (or_introl eq_refl))).
  - destruct (loadTasks_resolved_cache backend_odd_tasks
                (loaded default_draft) (VObj [("tasks", VStr "oops")]) eq_refl)
      as (_ & _ & _ & Hobj & _).
    destruct (Hobj _ eq_refl) as (_ & _ & Htruthy & _).
    exact (Htruthy (VStr "oops") eq_refl eq_refl).
Defined.

(** ** [createTask], both variants *)

Ltac create_validation :=
  intros;
  match goal with
  | H : blank _ |- _ => apply trim_eqb_blank in H
  | H : ~ blank _ |- _ => apply trim_eqb_not_blank in H
  end;
  unfold createTask, createTask_prompt_only, post_task, prompt_only_body,
    create_failed, created, reset_prompt_only in *;
  unfold_monad; cbn in *;
  repeat match goal with H : _ = _ |- _ => rewrite H; clear H; cbn end.

Section CreateTask.

Variables (en : env) (a : app).

Lemma createTask_blank :
  blank (prompt (newTask a)) ->
  createTask en a
  = (Ok tt, set_toasts (toasts a ++ [error_toast "請輸入提示詞"]) a).
Proof. create_validation. reflexivity. Qed.

Lemma createTask_prompt_only_blank :
  blank (prompt (newTask a)) ->
  createTask_prompt_only en a
  = (Ok tt, set_toasts (toasts a ++ [error_toast "請輸入提示詞"]) a).
Proof. create_validation. reflexivity. Qed.

Lemma createTask_no_key :
  ~ blank (prompt (newTask a)) ->
  truthy (apiKeyConfigured a) = false ->
  createTask en a
  = (Ok tt,
     set_showSettings true
       (set_toasts (toasts a ++ [error_toast "請先配置 API Key"]) a)).
Proof. create_validation. reflexivity. Qed.

Lemma createTask_prompt_only_no_key :
  ~ blank (prompt (newTask a)) ->
  truthy (apiKeyConfigured a) = false ->
  createTask_prompt_only en a
  = (Ok tt,
     set_showSettings true
       (set_toasts (toasts a ++ [error_toast "請先配置 API Key"]) a)).
Proof. create_validation. reflexivity. Qed.

Lemma createTask_rejected (e : error) :
  ~ blank (prompt (newTask a)) ->
  truthy (apiKeyConfigured a) = true ->
  first_outcome en a (post_task (requestData (newTask a))) = Rejected e ->
  createTask en a
  = (Ok tt, create_failed (post_task (requestData (newTask a))) e a).
Proof. create_validation. reflexivity. Qed.

Lemma createTask_prompt_only_rejected (e : error) :
  ~ blank (prompt (newTask a)) ->
  truthy (apiKeyConfigured a) = true ->
  first_outcome en a (post_task (prompt_only_body (newTask a))) = Rejected e ->
  createTask_prompt_only en a
  = (Ok tt, create_failed (post_task (prompt_only_body (newTask a))) e a).
Proof. create_validation. reflexivity. Qed.

Lemma createTask_resolved (r : response) :
  ~ blank (prompt (newTask a)) ->
  truthy (apiKeyConfigured a) = true ->
  first_outcome en a (post_task (requestData (newTask a))) = Resolved r ->
  createTask en a
  = (Ok tt, created reset_form (post_task (requestData (newTask a))) en a).
Proof.
  create_validation.
  match goal with |- context [loadTasks en ?x] =>
    pose proof (loadTasks_frame en x) as [F _]; unfold returned in F;
    destruct (loadTasks en x) as [res a2]; cbn in F; subst res
  end.
  reflexivity.
Qed.

Lemma createTask_prompt_only_resolved (r : response) :
  ~ blank (prompt (newTask a)) ->
  truthy (apiKeyConfigured a) = true ->
  first_outcome en a (post_task (prompt_only_body (newTask a))) = Resolved r ->
  createTask_prompt_only en a
  = (Ok tt, created reset_prompt_only (post_task (prompt_only_body (newTask a))) en a).
Proof.
  create_validation.
  match goal with |- context [loadTasks en ?x] =>
    pose proof (loadTasks_frame en x) as [F _]; unfold returned in F;
    destruct (loadTasks en x) as [res a2]; cbn in F; subst res
  end.
  reflexivity.
Qed.

End CreateTask.

(** ** [deleteTask], [saveSettings], [checkSettings] *)

Ltac run_method :=
  intros;
  repeat match goal with
  | H : blank _ |- _ => apply trim_eqb_blank in H
  | H : ~ blank _ |- _ => apply trim_eqb_not_blank in H
  end;
  unfold deleteTask, saveSettings, checkSettings, delete_task, post_settings,
    get_settings, delete_question in *;
  unfold_monad; cbn in *;
  repeat match goal with H : _ = _ |- _ => rewrite H; clear H; cbn end.

Section OtherMethods.

Variables (en : env) (a : app).

Lemma deleteTask_declined (taskId : value) :
  confirm en (List.length (dialogs a)) delete_question = false ->
  deleteTask taskId en a = (Ok tt, set_dialogs (dialogs a ++ [delete_question]) a).
Proof. run_method. reflexivity. Qed.

Lemma deleteTask_rejected (taskId : value) (e : error) :
  confirm en (List.length (dialogs a)) delete_question = true ->
  first_outcome en a (delete_task taskId) = Rejected e ->
  deleteTask taskId en a
  = (Ok tt,
     set_toasts (toasts a ++ [error_toast ("刪除失敗: " ++ to_string (error_detail e))])
       (set_console (console a ++ [("刪除任務失敗:", e)])
          (set_requests (requests a ++ [delete_task taskId])
             (set_dialogs (dialogs a ++ [delete_question]) a)))).
Proof. run_method. reflexivity. Qed.

Lemma saveSettings_blank :
  blank (apiKey a) ->
  saveSettings en a
  = (Ok tt, set_toasts (toasts a ++ [error_toast "請輸入 API Key"]) a).
Proof. run_method. reflexivity. Qed.

Lemma saveSettings_rejected (e : error) :
  ~ blank (apiKey a) ->
  first_outcome en a (post_settings (apiKey a)) = Rejected e ->
  saveSettings en a
  = (Ok tt,
     set_toasts (toasts a ++ [error_toast ("保存失敗: " ++ to_string (error_detail e))])
       (set_console (console a ++ [("保存設置失敗:", e)])
          (set_requests (requests a ++ [post_settings (apiKey a)]) a))).
Proof. run_method. reflexivity. Qed.

Lemma checkSettings_rejected (e : error) :
  first_outcome en a get_settings = Rejected e ->
  checkSettings en a
  = (Ok tt,
     set_console (console a ++ [("檢查設置失敗:", e)])
       (set_requests (requests a ++ [get_settings]) a)).
Proof. run_method. reflexivity. Qed.

End OtherMethods.

Lemma blank_dec (s : string) : {blank s} + {~ blank s}.
Proof.
  destruct (trim s =? "") eqn:E.
  - left. apply trim_empty_iff. now apply String.eqb_eq.
  - right. intros H. apply trim_empty_iff in H.
    apply String.eqb_neq in E. contradiction.
Qed.

Lemma nth_error_first_new {A} (l m : list A) (q : A) :
  nth_error (l ++ q :: m) (List.length l) = Some q.
Proof. induction l as [|x l IH]; [reflexivity | exact IH]. Qed.

Lemma requestData_prompt (d : draft) :
  lookup "prompt" (requestData d)
  = Some (VStr (trim (prompt d) ++ " " ++ buildParameterString d)).
Proof.
  unfold requestData.
  repeat match goal with
         | |- context [if ?c then _ else _] => destruct c
         end; reflexivity.
Qed.

(** ** Validation *)

(** C3. With a blank prompt [createTask] (either variant), with a blank key
    [saveSettings], and with no API key configured [createTask] (either
    variant) issue no request and show a validation toast before they
    return. *)
Theorem validation_blocks_requests (en : env) (a : app) :
  (blank (prompt (newTask a)) ->
     blocked_with createTask en a "請輸入提示詞"
     /\ blocked_with createTask_prompt_only en a "請輸入提示詞")
  /\ (blank (apiKey a) -> blocked_with saveSettings en a "請輸入 API Key")
  /\ (truthy (apiKeyConfigured a) = false ->
        exists msg,
          (msg = "請輸入提示詞" \/ msg = "請先配置 API Key")
          /\ blocked_with createTask en a msg
          /\ blocked_with createTask_prompt_only en a msg).
Proof.
  unfold blocked_with, returned, after. repeat split.
  1-6: rewrite ?(createTask_blank en a H), ?(createTask_prompt_only_blank en a H);
       reflexivity.
  1-3: rewrite (saveSettings_blank en a H); reflexivity.
  intros K. destruct (blank_dec (prompt (newTask a))) as [B|B].
  - exists "請輸入提示詞". split; [now left|].
    rewrite (createTask_blank en a B), (createTask_prompt_only_blank en a B).
    repeat split; reflexivity.
  - exists "請先配置 API Key". split; [now right|].
    rewrite (createTask_no_key en a B K), (createTask_prompt_only_no_key en a B K).
    repeat split; reflexivity.
Qed.

Lemma blank_spaces : blank "   ".
Proof. apply trim_empty_iff. reflexivity. Defined.

Lemma validation_blocks_requests_witness :
  blocked_with createTask backend_up (loaded (portrait_draft "   ")) "請輸入提示詞"
  /\ blocked_with saveSettings backend_up initial "請輸入 API Key"
  /\ exists msg, blocked_with createTask_prompt_only backend_up
                   (set_newTask (portrait_draft "a cat") initial) msg.
Proof.
  split; [|split].
  - destruct (validation_blocks_requests backend_up (loaded (portrait_draft "   ")))
      as (H & _ & _).
    exact (proj1 (H blank_spaces)).
  - destruct (validation_blocks_requests backend_up initial) as (_ & H & _).
    apply H. constructor.
  - destruct (validation_blocks_requests backend_up
                (set_newTask (portrait_draft "a cat") initial)) as (_ & _ & H).
    destruct (H eq_refl) as (msg & _ & _ & Hm).
    exists msg. exact Hm.
Defined.

(** ** Submission *)

(** C4. When validation passes and the POST request of [createTask]
    resolves, the draft's fields are at their defaults afterwards: ratio
    16:9, duration 5, resolution 720p, seed null, camera_fixed false, prompt
    empty (and, in the variant with image input, the image fields too). *)
Theorem createTask_success_resets_draft (en : env) (a : app) (r : response) :
  ~ blank (prompt (newTask a)) ->
  truthy (apiKeyConfigured a) = true ->
  (first_outcome en a (post_task (requestData (newTask a))) = Resolved r ->
     returned createTask en a = Ok tt
     /\ draft_is_default (newTask (after createTask en a))
     /\ newTask (after createTask en a) = default_draft)
  /\ (first_outcome en a (post_task (prompt_only_body (newTask a))) = Resolved r ->
        returned createTask_prompt_only en a = Ok tt
        /\ draft_is_default (newTask (after createTask_prompt_only en a))).
Proof.
  intros B K. split; intros H; unfold returned, after.
  - rewrite (createTask_resolved en a r B K H). cbn [fst snd].
    unfold created. cbn [newTask set_isCreating set_toasts].
    match goal with |- context [after loadTasks en ?x] =>
      destruct (loadTasks_frame en x) as (_ & _ & -> & _)
    end.
    repeat split; reflexivity.
  - rewrite (createTask_prompt_only_resolved en a r B K H). cbn [fst snd].
    unfold created. cbn [newTask set_isCreating set_toasts].
    match goal with |- context [after loadTasks en ?x] =>
      destruct (loadTasks_frame en x) as (_ & _ & -> & _)
    end.
    repeat split; reflexivity.
Qed.

Lemma not_blank_a_cat : ~ blank "  a cat ".
Proof. intros H. apply trim_empty_iff in H. discriminate H. Defined.

Lemma createTask_success_resets_draft_witness :
  newTask (after createTask backend_up (loaded (portrait_draft "  a cat ")))
  = default_draft
  /\ draft_is_default
       (newTask (after createTask_prompt_only backend_up
                   (loaded (portrait_draft "  a cat ")))).
Proof.
  destruct (createTask_success_resets_draft backend_up
              (loaded (portrait_draft "  a cat "))
              {| data := VObj [("tasks", VArr [sample_task])] |}
              not_blank_a_cat eq_refl) as (H1 & H2).
  split.
  - exact (proj2 (proj2 (H1 eq_refl))).
  - exact (proj2 (H2 eq_refl)).
Defined.

(** C9. When validation passes and the POST request of [createTask]
    rejects, the draft is exactly what it was before the call and
    [isCreating] is false when the call returns. *)
Theorem createTask_failure_keeps_draft (en : env) (a : app) (e : error) :
  ~ blank (prompt (newTask a)) ->
  truthy (apiKeyConfigured a) = true ->
  (first_outcome en a (post_task (requestData (newTask a))) = Rejected e ->
     returned createTask en a = Ok tt
     /\ newTask (after createTask en a) = newTask a
     /\ isCreating (after createTask en a) = false)
  /\ (first_outcome en a (post_task (prompt_only_body (newTask a))) = Rejected e ->
        returned createTask_prompt_only en a = Ok tt
        /\ newTask (after createTask_prompt_only en a) = newTask a
        /\ isCreating (after createTask_prompt_only en a) = false).
Proof.
  intros B K. split; intros H; unfold returned, after.
  - rewrite (createTask_rejected en a e B K H). repeat split; reflexivity.
  - rewrite (createTask_prompt_only_rejected en a e B K H).
    repeat split; reflexivity.
Qed.

Lemma createTask_failure_keeps_draft_witness :
  newTask (after createTask backend_down (loaded (portrait_draft "  a cat ")))
  = portrait_draft "  a cat "
  /\ isCreating (after createTask_prompt_only backend_down
                   (loaded (portrait_draft "  a cat "))) = false.
Proof.
  destruct (createTask_failure_keeps_draft backend_down
              (loaded (portrait_draft "  a cat ")) network_error
              not_blank_a_cat eq_refl) as (H1 & H2).
  split.
  - exact (proj1 (proj2 (H1 eq_refl))).
  - exact (proj2 (proj2 (H2 eq_refl))).
Defined.

(** C5, as stated, fails: the prompt posted is not the raw prompt text when
    that text has white space at either end. *)
Lemma createTask_posts_raw_prompt_fails :
  ~ (forall (en : env) (a : app),
       ~ blank (prompt (newTask a)) ->
       truthy (apiKeyConfigured a) = true ->
       posted_prompt a (after createTask en a)
       = Some (VStr (prompt (newTask a) ++ " " ++ buildParameterString (newTask a)))).
Proof.
  intros H.
  specialize (H backend_up (loaded (portrait_draft "  a cat "))
                not_blank_a_cat eq_refl).
  vm_compute in H. discriminate H.
Qed.

(** C5, amended. For every draft passing validation, the prompt posted by
    [createTask] to [/api/tasks] is the user's prompt with the white space
    at both ends removed, one space, and the result of
    [buildParameterString] for that draft. *)
Theorem createTask_posts_trimmed_prompt (en : env) (a : app) :
  ~ blank (prompt (newTask a)) ->
  truthy (apiKeyConfigured a) = true ->
  posted_prompt a (after createTask en a)
  = Some (VStr (trim (prompt (newTask a)) ++ " "
                ++ buildParameterString (newTask a)))
  /\ posted_prompt a (after createTask_prompt_only en a)
     = Some (VStr (trim (prompt (newTask a)) ++ " "
                   ++ buildParameterString (newTask a))).
Proof.
  intros B K. unfold after, posted_prompt. split.
  - destruct (first_outcome en a (post_task (requestData (newTask a))))
      as [r|e] eqn:H.
    + rewrite (createTask_resolved en a r B K H). cbn [fst snd].
      unfold created. cbn [requests set_isCreating set_toasts].
      match goal with |- context [after loadTasks en ?x] =>
        destruct (loadTasks_frame en x) as (_ & -> & _)
      end.
      unfold reset_form. cbn [requests set_requests set_newTask
        set_imageInputModes set_imagePreviews set_refImageInputModes
        set_refImagePreviews].
      rewrite <- app_assoc. cbn [Datatypes.app].
      rewrite nth_error_first_new. cbn. apply requestData_prompt.
    + rewrite (createTask_rejected en a e B K H). cbn [fst snd].
      unfold create_failed. cbn [requests set_isCreating set_toasts
        set_console set_requests].
      rewrite nth_error_first_new. cbn. apply requestData_prompt.
  - destruct (first_outcome en a (post_task (prompt_only_body (newTask a))))
      as [r|e] eqn:H.
    + rewrite (createTask_prompt_only_resolved en a r B K H). cbn [fst snd].
      unfold created. cbn [requests set_isCreating set_toasts].
      match goal with |- context [after loadTasks en ?x] =>
        destruct (loadTasks_frame en x) as (_ & -> & _)
      end.
      unfold reset_prompt_only. cbn [requests set_requests set_newTask].
      rewrite <- app_assoc. cbn [Datatypes.app].
      rewrite nth_error_first_new. reflexivity.
    + rewrite (createTask_prompt_only_rejected en a e B K H). cbn [fst snd].
      unfold create_failed. cbn [requests set_isCreating set_toasts
        set_console set_requests].
      rewrite nth_error_first_new. reflexivity.
Qed.

Lemma createTask_posts_trimmed_prompt_witness :
  posted_prompt (loaded (portrait_draft "  a cat "))
    (after createTask backend_up (loaded (portrait_draft "  a cat ")))
  = Some (VStr "a cat --rt 9:16 --dur 3 --fps 24 --rs 1080p --cf true").
Proof.
  exact (proj1 (createTask_posts_trimmed_prompt backend_up
                  (loaded (portrait_draft "  a cat ")) not_blank_a_cat eq_refl)).
Defined.

(** ** Failures of the network *)

(** C6, as stated, fails for [checkSettings]: its rejected request shows no
    toast. *)
Lemma checkSettings_failure_shows_no_toast :
  first_outcome backend_down initial get_settings = Rejected network_error
  /\ toasts (after checkSettings backend_down initial) = []
  /\ ~ (exists msg, caught_with_toast checkSettings backend_down initial msg).
Proof.
  split; [reflexivity|]. split; [reflexivity|].
  intros [msg [_ H]]. vm_compute in H. discriminate H.
Qed.

(** C6, amended. If the request of [loadTasks], [createTask] (either
    variant), [deleteTask] or [saveSettings] rejects, the method catches the
    failure, returns normally and shows an error toast that carries the
    backend's error field when there is one and the error's message
    otherwise; if the request of [checkSettings] rejects, the method catches
    the failure, returns normally and writes it to the console, showing no
    toast. *)
Theorem rejections_are_caught (en : env) (a : app) (e : error) (taskId : value) :
  (first_outcome en a get_tasks = Rejected e ->
     caught_with_toast loadTasks en a
       ("載入任務失敗: " ++ to_string (error_detail e)))
  /\ (~ blank (prompt (newTask a)) ->
      truthy (apiKeyConfigured a) = true ->
      first_outcome en a (post_task (requestData (newTask a))) = Rejected e ->
      caught_with_toast createTask en a
        ("創建失敗: " ++ to_string (error_detail e)))
  /\ (~ blank (prompt (newTask a)) ->
      truthy (apiKeyConfigured a) = true ->
      first_outcome en a (post_task (prompt_only_body (newTask a))) = Rejected e ->
      caught_with_toast createTask_prompt_only en a
        ("創建失敗: " ++ to_string (error_detail e)))
  /\ (confirm en (List.length (dialogs a)) delete_question = true ->
      first_outcome en a (delete_task taskId) = Rejected e ->
      caught_with_toast (deleteTask taskId) en a
        ("刪除失敗: " ++ to_string (error_detail e)))
  /\ (~ blank (apiKey a) ->
      first_outcome en a (post_settings (apiKey a)) = Rejected e ->
      caught_with_toast saveSettings en a
        ("保存失敗: " ++ to_string (error_detail e)))
  /\ (first_outcome en a get_settings = Rejected e ->
      returned checkSettings en a = Ok tt
      /\ toasts (after checkSettings en a) = toasts a
      /\ console (after checkSettings en a)
         = (console a ++ [("檢查設置失敗:", e)])%list).
Proof.
  unfold caught_with_toast, returned, after.
  split; [|split; [|split; [|split; [|split]]]].
  - intros H. rewrite (loadTasks_rejected en a e H). split; reflexivity.
  - intros B K H. rewrite (createTask_rejected en a e B K H). split; reflexivity.
  - intros B K H. rewrite (createTask_prompt_only_rejected en a e B K H).
    split; reflexivity.
  - intros C H. rewrite (deleteTask_rejected en a taskId e C H). split; reflexivity.
  - intros B H. rewrite (saveSettings_rejected en a e B H). split; reflexivity.
  - intros H. rewrite (checkSettings_rejected en a e H). repeat split; reflexivity.
Qed.

Lemma rejections_are_caught_witness :
  caught_with_toast loadTasks backend_failing (loaded (portrait_draft "  a cat "))
    "載入任務失敗: quota exceeded"
  /\ caught_with_toast createTask backend_failing (loaded (portrait_draft "  a cat "))
       "創建失敗: quota exceeded"
  /\ caught_with_toast (deleteTask (VStr "t1")) backend_down
       (loaded (portrait_draft "  a cat ")) "刪除失敗: Network Error"
  /\ toasts (after checkSettings backend_down (loaded (portrait_draft "  a cat "))) = [].
Proof.
  destruct (rejections_are_caught backend_failing
              (loaded (portrait_draft "  a cat ")) server_error (VStr "t1"))
    as (L & C & _).
  destruct (rejections_are_caught backend_down
              (loaded (portrait_draft "  a cat ")) network_error (VStr "t1"))
    as (_ & _ & _ & D & _ & S).
  split; [|split; [|split]].
  - exact (L eq_refl).
  - exact (C not_blank_a_cat eq_refl eq_refl).
  - exact (D eq_refl eq_refl).
  - exact (proj1 (proj2 (S eq_refl))).
Defined.

(** C7. If the user does not confirm the dialog, [deleteTask] issues no
    request (so none to the delete endpoint) and leaves the tasks cache as
    it was. *)
Theorem deleteTask_needs_confirmation (en : env) (a : app) (taskId : value) :
  confirm en (List.length (dialogs a)) delete_question = false ->
  returned (deleteTask taskId) en a = Ok tt
  /\ requests (after (deleteTask taskId) en a) = requests a
  /\ tasks (after (deleteTask taskId) en a) = tasks a
  /\ dialogs (after (deleteTask taskId) en a) = (dialogs a ++ [delete_question])%list.
Proof.
  intros H. unfold returned, after.
  rewrite (deleteTask_declined en a taskId H). repeat split; reflexivity.
Qed.

Lemma deleteTask_needs_confirmation_witness :
  requests (after (deleteTask (VStr "t1")) user_declines (loaded default_draft)) = []
  /\ tasks (after (deleteTask (VStr "t1")) user_declines (loaded default_draft))
     = VArr [sample_task].
Proof.
  destruct (deleteTask_needs_confirmation user_declines (loaded default_draft)
              (VStr "t1") eq_refl) as (_ & R & T & _).
  split; [exact R | exact T].
Defined.

(** * Further properties of the methods *)

(** ** Refreshing the cache *)

Section Refresh.

Variables (en : env) (a : app).

(** Either [loadTasks] caught an error [e] (a rejected request, or a body
    that is [null] or [undefined]), or it stored a new cache [t]. *)
Lemma loadTasks_cases :
  (exists e,
     (first_outcome en a get_tasks = Rejected e
      \/ exists d, first_outcome en a get_tasks = Resolved {| data := d |}
                   /\ (d = VNull \/ d = VUndefined))
     /\ loadTasks en a
        = (Ok tt,
           set_toasts
             (toasts a ++ [error_toast ("載入任務失敗: " ++ to_string (error_detail e))])
             (set_console (console a ++ [("載入任務失敗:", e)])
                (set_requests (requests a ++ [get_tasks]) a))))
  \/ (exists d,
        first_outcome en a get_tasks = Resolved {| data := d |}
        /\ loadTasks en a
           = (Ok tt,
              set_tasks (js_or (opt_prop d "tasks") (VArr []))
                (set_requests (requests a ++ [get_tasks]) a))).
Proof.
  unfold loadTasks, get_tasks. unfold_monad.
  destruct (http en _ _) as [[d]|e] eqn:H; cbn.
  - destruct d as [| |b|z|s|l|f]; cbn;
      try (right; eexists; split; [reflexivity|reflexivity]).
    + left. eexists. split; [right; eexists; split; [reflexivity|now right]|].
      reflexivity.
    + left. eexists. split; [right; eexists; split; [reflexivity|now left]|].
      reflexivity.
    + right. eexists. split; [reflexivity|].
      unfold opt_prop. destruct (lookup "tasks" f); reflexivity.
  - left. exists e. split; [now left | reflexivity].
Qed.

End Refresh.



(** ** [createTask] after validation *)

Section Created.

Variables (reset : app -> app) (q : request) (en : env) (a : app).

Hypothesis reset_keeps :
  forall x, requests (reset x) = requests x
            /\ tasks (reset x) = tasks x
            /\ toasts (reset x) = toasts x.

Let a1 : app := reset (set_requests (requests a ++ [q]) (set_isCreating true a)).

Lemma created_second_request :
  first_outcome en a1 get_tasks = http en (S (List.length (requests a))) get_tasks.
Proof.
  unfold first_outcome, a1.
  destruct (reset_keeps (set_requests (requests a ++ [q]) (set_isCreating true a)))
    as (-> & _).
  cbn. now rewrite length_app, Nat.add_1_r.
Qed.

Lemma created_spec :
  requests (created reset q en a) = (requests a ++ [q; get_tasks])%list
  /\ isCreating (created reset q en a) = false
  /\ (exists mid,
        toasts (created reset q en a)
        = (toasts a ++ mid ++ [success_toast "任務創建成功！"])%list)
  /\ (forall e,
        http en (S (List.length (requests a))) get_tasks = Rejected e ->
        tasks (created reset q en a) = tasks a
        /\ toasts (created reset q en a)
           = (toasts a
              ++ [error_toast ("載入任務失敗: " ++ to_string (error_detail e));
                  success_toast "任務創建成功！"])%list)
  /\ (forall d,
        http en (S (List.length (requests a))) get_tasks
        = Resolved {| data := d |} ->
        (d = VNull \/ d = VUndefined ->
         tasks (created reset q en a) = tasks a
         /\ toasts (created reset q en a)
            = (toasts a
               ++ [error_toast
                     ("載入任務失敗: "
                      ++ to_string
                           (error_detail (type_error (to_string d) "tasks")));
                   success_toast "任務創建成功！"])%list)
        /\ (d <> VNull -> d <> VUndefined ->
            tasks (created reset q en a) = js_or (opt_prop d "tasks") (VArr [])
            /\ toasts (created reset q en a)
               = (toasts a ++ [success_toast "任務創建成功！"])%list))
  /\ (forall fields,
        http en (S (List.length (requests a))) get_tasks
        = Resolved {| data := VObj fields |} ->
        tasks (created reset q en a)
        = js_or (opt_prop (VObj fields) "tasks") (VArr [])
        /\ toasts (created reset q en a)
           = (toasts a ++ [success_toast "任務創建成功！"])%list).
Proof.
  pose proof created_second_request as S2.
  destruct (reset_keeps (set_requests (requests a ++ [q]) (set_isCreating true a)))
    as (Rq & Rt & Ro). cbn in Rq, Rt, Ro. fold a1 in Rq, Rt, Ro.
  unfold created. fold a1. unfold after.
  split; [|split; [reflexivity|split; [|split; [|split]]]].
  - destruct (loadTasks_cases en a1) as [(e & _ & ->)|(d & _ & ->)]; cbn;
      rewrite Rq, <- app_assoc; reflexivity.
  - destruct (loadTasks_cases en a1) as [(e & _ & ->)|(d & _ & ->)]; cbn;
      rewrite Ro.
    + eexists [_]. rewrite <- app_assoc. reflexivity.
    + exists []. reflexivity.
  - intros e H. rewrite <- S2 in H.
    rewrite (loadTasks_rejected en a1 e H). cbn.
    rewrite Rt, Ro, <- app_assoc. split; reflexivity.
  - intros d H. rewrite <- S2 in H. split.
    + intros N. rewrite (loadTasks_resolved_nullish en a1 d H N). cbn.
      rewrite Rt, Ro, <- app_assoc. split; reflexivity.
    + intros N U. rewrite (loadTasks_resolved_value en a1 d H N U). cbn.
      rewrite Ro. split; reflexivity.
  - intros fields H. rewrite <- S2 in H.
    rewrite (loadTasks_resolved_object en a1 fields H). cbn.
    rewrite Ro. split; reflexivity.
Qed.

End Created.

Lemma reset_form_keeps (x : app) :
  requests (reset_form x) = requests x
  /\ tasks (reset_form x) = tasks x
  /\ toasts (reset_form x) = toasts x.
Proof. repeat split; reflexivity. Qed.

Lemma reset_prompt_only_keeps (x : app) :
  requests (reset_prompt_only x) = requests x
  /\ tasks (reset_prompt_only x) = tasks x
  /\ toasts (reset_prompt_only x) = toasts x.
Proof. repeat split; reflexivity. Qed.

(** X2. When validation passes and the POST resolves, [createTask] (with
    image input) issues exactly the POST and then one GET of the task list,
    clears the busy flag and, whatever that GET does, ends with the success
    toast.  If the GET rejects, or resolves with a [null] or [undefined]
    body, the cache stays as it was and the load-error toast precedes the
    success toast; if it resolves with any other body, the cache is the
    body's [tasks] when truthy and the empty list otherwise, and the success
    toast is the only new one. *)
Theorem createTask_success_refreshes (en : env) (a : app) (r : response) :
  ~ blank (prompt (newTask a)) ->
  truthy (apiKeyConfigured a) = true ->
  first_outcome en a (post_task (requestData (newTask a))) = Resolved r ->
  requests (after createTask en a) = (requests a ++ [post_task (requestData (newTask a)); get_tasks])%list
  /\ isCreating (after createTask en a) = false
  /\ (exists mid,
        toasts (after createTask en a)
        = (toasts a ++ mid ++ [success_toast "任務創建成功！"])%list)
  /\ (forall e,
        http en (S (List.length (requests a))) get_tasks = Rejected e ->
        tasks (after createTask en a) = tasks a
        /\ toasts (after createTask en a)
           = (toasts a
              ++ [error_toast ("載入任務失敗: " ++ to_string (error_detail e));
                  success_toast "任務創建成功！"])%list)
  /\ (forall d,
        http en (S (List.length (requests a))) get_tasks
        = Resolved {| data := d |} ->
        (d = VNull \/ d = VUndefined ->
         tasks (after createTask en a) = tasks a
         /\ toasts (after createTask en a)
            = (toasts a
               ++ [error_toast
                     ("載入任務失敗: "
                      ++ to_string
                           (error_detail (type_error (to_string d) "tasks")));
                   success_toast "任務創建成功！"])%list)
        /\ (d <> VNull -> d <> VUndefined ->
            tasks (after createTask en a) = js_or (opt_prop d "tasks") (VArr [])
            /\ toasts (after createTask en a)
               = (toasts a ++ [success_toast "任務創建成功！"])%list))
  /\ (forall fields,
        http en (S (List.length (requests a))) get_tasks
        = Resolved {| data := VObj fields |} ->
        tasks (after createTask en a)
        = js_or (opt_prop (VObj fields) "tasks") (VArr [])
        /\ toasts (after createTask en a)
           = (toasts a ++ [success_toast "任務創建成功！"])%list).
Proof.
  intros B K H. unfold after. rewrite (createTask_resolved en a r B K H).
  cbn [snd]. apply created_spec. apply reset_form_keeps.
Qed.

Lemma createTask_success_refreshes_witness :
  requests (after createTask backend_up (loaded (portrait_draft "  a cat ")))
  = [post_task (requestData (portrait_draft "  a cat ")); get_tasks]
  /\ tasks (after createTask backend_up (loaded (portrait_draft "  a cat ")))
     = VArr [sample_task]
  /\ toasts (after createTask backend_null_body (loaded (portrait_draft "  a cat ")))
     = [error_toast "載入任務失敗: Cannot read properties of null (reading 'tasks')";
        success_toast "任務創建成功！"].
Proof.
  destruct (createTask_success_refreshes backend_up
              (loaded (portrait_draft "  a cat "))
              {| data := VObj [("tasks", VArr [sample_task])] |}
              not_blank_a_cat eq_refl eq_refl) as (R & _ & _ & _ & _ & T).
  destruct (createTask_success_refreshes backend_null_body
              (loaded (portrait_draft "  a cat ")) {| data := VNull |}
              not_blank_a_cat eq_refl eq_refl) as (_ & _ & _ & _ & N & _).
  split; [exact R|]. split.
  - exact (proj1 (T [("tasks", VArr [sample_task])] eq_refl)).
  - exact (proj2 (proj1 (N VNull eq_refl) (or_introl eq_refl))).
Defined.

(** X3. The same for the variant of [createTask] that sends the prompt only:
    after its one POST, which carries just the [prompt] field, it issues one
    GET of the task list, clears the busy flag and, whatever that GET does,
    ends with the success toast; the cache and the toasts follow the GET as
    in the variant with image input. *)
Theorem createTask_prompt_only_success_refreshes
    (en : env) (a : app) (r : response) :
  ~ blank (prompt (newTask a)) ->
  truthy (apiKeyConfigured a) = true ->
  first_outcome en a (post_task (prompt_only_body (newTask a))) = Resolved r ->
  requests (after createTask_prompt_only en a) = (requests a ++ [post_task (prompt_only_body (newTask a)); get_tasks])%list
  /\ isCreating (after createTask_prompt_only en a) = false
  /\ (exists mid,
        toasts (after createTask_prompt_only en a)
        = (toasts a ++ mid ++ [success_toast "任務創建成功！"])%list)
  /\ (forall e,
        http en (S (List.length (requests a))) get_tasks = Rejected e ->
        tasks (after createTask_prompt_only en a) = tasks a
        /\ toasts (after createTask_prompt_only en a)
           = (toasts a
              ++ [error_toast ("載入任務失敗: " ++ to_string (error_detail e));
                  success_toast "任務創建成功！"])%list)
  /\ (forall d,
        http en (S (List.length (requests a))) get_tasks
        = Resolved {| data := d |} ->
        (d = VNull \/ d = VUndefined ->
         tasks (after createTask_prompt_only en a) = tasks a
         /\ toasts (after createTask_prompt_only en a)
            = (toasts a
               ++ [error_toast
                     ("載入任務失敗: "
                      ++ to_string
                           (error_detail (type_error (to_string d) "tasks")));
                   success_toast "任務創建成功！"])%list)
        /\ (d <> VNull -> d <> VUndefined ->
            tasks (after createTask_prompt_only en a) = js_or (opt_prop d "tasks") (VArr [])
            /\ toasts (after createTask_prompt_only en a)
               = (toasts a ++ [success_toast "任務創建成功！"])%list))
  /\ (forall fields,
        http en (S (List.length (requests a))) get_tasks
        = Resolved {| data := VObj fields |} ->
        tasks (after createTask_prompt_only en a)
        = js_or (opt_prop (VObj fields) "tasks") (VArr [])
        /\ toasts (after createTask_prompt_only en a)
           = (toasts a ++ [success_toast "任務創建成功！"])%list).
Proof.
  intros B K H. unfold after.
  rewrite (createTask_prompt_only_resolved en a r B K H).
  cbn [snd]. apply created_spec. apply reset_prompt_only_keeps.
Qed.

Lemma createTask_prompt_only_success_refreshes_witness :
  toasts (after createTask_prompt_only backend_up
            (loaded (portrait_draft "  a cat ")))
  = [success_toast "任務創建成功！"]
  /\ tasks (after createTask_prompt_only backend_null_body
              (loaded (portrait_draft "  a cat ")))
     = VArr [sample_task].
Proof.
  destruct (createTask_prompt_only_success_refreshes backend_up
              (loaded (portrait_draft "  a cat "))
              {| data := VObj [("tasks", VArr [sample_task])] |}
              not_blank_a_cat eq_refl eq_refl) as (_ & _ & _ & _ & _ & T).
  destruct (createTask_prompt_only_success_refreshes backend_null_body
              (loaded (portrait_draft "  a cat ")) {| data := VNull |}
              not_blank_a_cat eq_refl eq_refl) as (_ & _ & _ & _ & N & _).
  split.
  - exact (proj2 (T [("tasks", VArr [sample_task])] eq_refl)).
  - exact (proj1 (proj1 (N VNull eq_refl) (or_introl eq_refl))).
Defined.

(** X4. [createTask] (either variant) never throws, and never leaves the
    busy flag set: if [isCreating] was false before the call it is false
    when the call returns, whatever the backend answers. *)
Theorem createTask_never_stays_busy (en : env) (a : app) :
  returned createTask en a = Ok tt
  /\ returned createTask_prompt_only en a = Ok tt
  /\ (isCreating a = false ->
      isCreating (after createTask en a) = false
      /\ isCreating (after createTask_prompt_only en a) = false).
Proof.
  unfold returned, after.
  destruct (blank_dec (prompt (newTask a))) as [B|B].
  - rewrite (createTask_blank en a B), (createTask_prompt_only_blank en a B).
    repeat split; assumption.
  - destruct (truthy (apiKeyConfigured a)) eqn:K.
    + destruct (first_outcome en a (post_task (requestData (newTask a))))
        as [r|e] eqn:H1;
      destruct (first_outcome en a (post_task (prompt_only_body (newTask a))))
        as [r'|e'] eqn:H2;
      rewrite ?(createTask_resolved en a _ B K H1),
        ?(createTask_rejected en a _ B K H1),
        ?(createTask_prompt_only_resolved en a _ B K H2),
        ?(createTask_prompt_only_rejected en a _ B K H2);
      repeat split; reflexivity.
    + rewrite (createTask_no_key en a B K), (createTask_prompt_only_no_key en a B K).
      repeat split; assumption.
Qed.

Lemma createTask_never_stays_busy_witness :
  isCreating (after createTask backend_down (loaded (portrait_draft "  a cat ")))
  = false.
Proof.
  destruct (createTask_never_stays_busy backend_down
              (loaded (portrait_draft "  a cat "))) as (_ & _ & H).
  exact (proj1 (H eq_refl)).
Defined.

(** X5. With no API key configured, [createTask] (either variant) opens the
    settings panel and keeps the draft when the prompt is not blank; when
    the prompt is blank it leaves the panel as it was, since the prompt is
    checked first. *)
Theorem createTask_missing_key_opens_settings (en : env) (a : app) :
  truthy (apiKeyConfigured a) = false ->
  (~ blank (prompt (newTask a)) ->
     showSettings (after createTask en a) = true
     /\ newTask (after createTask en a) = newTask a
     /\ showSettings (after createTask_prompt_only en a) = true
     /\ newTask (after createTask_prompt_only en a) = newTask a)
  /\ (blank (prompt (newTask a)) ->
      showSettings (after createTask en a) = showSettings a
      /\ showSettings (after createTask_prompt_only en a) = showSettings a).
Proof.
  intros K. unfold after. split; intros B.
  - rewrite (createTask_no_key en a B K), (createTask_prompt_only_no_key en a B K).
    repeat split; reflexivity.
  - rewrite (createTask_blank en a B), (createTask_prompt_only_blank en a B).
    repeat split; reflexivity.
Qed.

Lemma not_blank_word : ~ blank "a cat".
Proof. intros H. apply trim_empty_iff in H. discriminate H. Defined.

Lemma createTask_missing_key_opens_settings_witness :
  showSettings (after createTask backend_up
                  (set_newTask (portrait_draft "a cat") initial)) = true
  /\ showSettings (after createTask backend_up initial) = false.
Proof.
  split.
  - destruct (createTask_missing_key_opens_settings backend_up
                (set_newTask (portrait_draft "a cat") initial) eq_refl) as (H & _).
    exact (proj1 (H not_blank_word)).
  - destruct (createTask_missing_key_opens_settings backend_up initial eq_refl)
      as (_ & H).
    apply H. constructor.
Defined.

(** ** [deleteTask] and [saveSettings] when the backend answers *)

Section Answered.

Variables (en : env) (a : app).

Lemma deleteTask_resolved (taskId : value) (r : response) :
  confirm en (List.length (dialogs a)) delete_question = true ->
  first_outcome en a (delete_task taskId) = Resolved r ->
  deleteTask taskId en a
  = (Ok tt,
     let a2 := after loadTasks en
                 (set_requests (requests a ++ [delete_task taskId])
                    (set_dialogs (dialogs a ++ [delete_question]) a)) in
     set_toasts (toasts a2 ++ [success_toast "任務已刪除"]) a2).
Proof.
  run_method.
  match goal with |- context [loadTasks en ?x] =>
    pose proof (loadTasks_frame en x) as [F _]; unfold returned in F;
    destruct (loadTasks en x) as [res a2]; cbn in F; subst res
  end.
  reflexivity.
Qed.

Lemma saveSettings_resolved (r : response) :
  ~ blank (apiKey a) ->
  first_outcome en a (post_settings (apiKey a)) = Resolved r ->
  saveSettings en a
  = (Ok tt,
     let a1 :=
       set_dialogs (dialogs a ++ [reload_question])
         (set_apiKeyConfigured (VBool true)
            (set_apiKey ""
               (set_showSettings false
                  (set_requests (requests a ++ [post_settings (apiKey a)]) a)))) in
     if confirm en (List.length (dialogs a)) reload_question
     then set_reloads (S (reloads a)) a1
     else set_toasts (toasts a ++ [success_toast "設置已保存"]) a1).
Proof.
  run_method.
  destruct (confirm en (List.length (dialogs a)) reload_question); reflexivity.
Qed.

End Answered.

(** X6. Once the user confirms, [deleteTask] refreshes the cache exactly
    when the delete succeeded: after a resolved DELETE it issues one GET of
    the task list and ends with the success toast; after a rejected DELETE
    it issues nothing more and the cache is what it was.  The draft is
    untouched either way. *)
Theorem deleteTask_refreshes_on_success
    (en : env) (a : app) (taskId : value) :
  confirm en (List.length (dialogs a)) delete_question = true ->
  (forall r,
     first_outcome en a (delete_task taskId) = Resolved r ->
     returned (deleteTask taskId) en a = Ok tt
     /\ requests (after (deleteTask taskId) en a)
        = (requests a ++ [delete_task taskId; get_tasks])%list
     /\ newTask (after (deleteTask taskId) en a) = newTask a
     /\ exists mid,
          toasts (after (deleteTask taskId) en a)
          = (toasts a ++ mid ++ [success_toast "任務已刪除"])%list)
  /\ (forall e,
        first_outcome en a (delete_task taskId) = Rejected e ->
        requests (after (deleteTask taskId) en a)
        = (requests a ++ [delete_task taskId])%list
        /\ tasks (after (deleteTask taskId) en a) = tasks a
        /\ newTask (after (deleteTask taskId) en a) = newTask a).
Proof.
  intros C. unfold returned, after. split.
  - intros r H. rewrite (deleteTask_resolved en a taskId r C H). cbn [fst snd].
    match goal with |- context [after loadTasks en ?x] =>
      destruct (loadTasks_cases en x) as [(e & _ & E)|(d & _ & E)];
      unfold after; rewrite E
    end; cbn; rewrite <- ?app_assoc; repeat split; try reflexivity.
    + eexists [_]. reflexivity.
    + exists []. reflexivity.
  - intros e H. rewrite (deleteTask_rejected en a taskId e C H).
    repeat split; reflexivity.
Qed.

Lemma deleteTask_refreshes_on_success_witness :
  requests (after (deleteTask (VStr "t1")) backend_up (loaded default_draft))
  = [delete_task (VStr "t1"); get_tasks]
  /\ requests (after (deleteTask (VStr "t1")) backend_down (loaded default_draft))
     = [delete_task (VStr "t1")].
Proof.
  split.
  - destruct (deleteTask_refreshes_on_success backend_up (loaded default_draft)
                (VStr "t1") eq_refl) as (H & _).
    exact (proj1 (proj2 (H _ eq_refl))).
  - destruct (deleteTask_refreshes_on_success backend_down (loaded default_draft)
                (VStr "t1") eq_refl) as (_ & H).
    exact (proj1 (H _ eq_refl)).
Defined.

(** X7. With a non-blank key and a resolved POST, [saveSettings] has sent
    the key exactly as typed (it is tested trimmed but sent untrimmed),
    closes the panel, clears the input and marks the key configured; it then
    asks once whether to reload, and reloads if the user agrees, or else
    shows the success toast. *)
Theorem saveSettings_success (en : env) (a : app) (r : response) :
  ~ blank (apiKey a) ->
  first_outcome en a (post_settings (apiKey a)) = Resolved r ->
  returned saveSettings en a = Ok tt
  /\ requests (after saveSettings en a)
     = (requests a ++ [post_settings (apiKey a)])%list
  /\ showSettings (after saveSettings en a) = false
  /\ apiKey (after saveSettings en a) = ""
  /\ apiKeyConfigured (after saveSettings en a) = VBool true
  /\ dialogs (after saveSettings en a) = (dialogs a ++ [reload_question])%list
  /\ (if confirm en (List.length (dialogs a)) reload_question
      then reloads (after saveSettings en a) = S (reloads a)
           /\ toasts (after saveSettings en a) = toasts a
      else reloads (after saveSettings en a) = reloads a
           /\ toasts (after saveSettings en a)
              = (toasts a ++ [success_toast "設置已保存"])%list).
Proof.
  intros B H. unfold returned, after. rewrite (saveSettings_resolved en a r B H).
  cbn [fst snd].
  destruct (confirm en (List.length (dialogs a)) reload_question);
    repeat split; reflexivity.
Qed.

Lemma not_blank_padded_key : ~ blank " sk-1 ".
Proof. intros H. apply trim_empty_iff in H. discriminate H. Defined.

Lemma saveSettings_success_witness :
  requests (after saveSettings user_declines (set_apiKey " sk-1 " initial))
  = [post_settings " sk-1 "]
  /\ apiKey (after saveSettings user_declines (set_apiKey " sk-1 " initial)) = "".
Proof.
  destruct (saveSettings_success user_declines (set_apiKey " sk-1 " initial)
              {| data := VObj [] |} not_blank_padded_key eq_refl)
    as (_ & R & _ & K & _).
  split; [exact R | exact K].
Defined.

(** X8. If the POST of [saveSettings] rejects, the typed key stays in the
    input, the panel and the configured flag are as before, and the user is
    not asked to reload. *)
Theorem saveSettings_failure_keeps_input (en : env) (a : app) (e : error) :
  ~ blank (apiKey a) ->
  first_outcome en a (post_settings (apiKey a)) = Rejected e ->
  apiKey (after saveSettings en a) = apiKey a
  /\ showSettings (after saveSettings en a) = showSettings a
  /\ apiKeyConfigured (after saveSettings en a) = apiKeyConfigured a
  /\ dialogs (after saveSettings en a) = dialogs a
  /\ reloads (after saveSettings en a) = reloads a.
Proof.
  intros B H. unfold after. rewrite (saveSettings_rejected en a e B H).
  repeat split; reflexivity.
Qed.

Lemma saveSettings_failure_keeps_input_witness :
  apiKey (after saveSettings backend_down (set_apiKey " sk-1 " initial)) = " sk-1 ".
Proof.
  exact (proj1 (saveSettings_failure_keeps_input backend_down
                  (set_apiKey " sk-1 " initial) network_error
                  not_blank_padded_key eq_refl)).
Defined.

(** ** [checkSettings] *)

Section CheckSettings.

Variables (en : env) (a : app).

Lemma checkSettings_cases :
  (exists e,
     (first_outcome en a get_settings = Rejected e
      \/ exists d, first_outcome en a get_settings = Resolved {| data := d |}
                   /\ (d = VNull \/ d = VUndefined))
     /\ checkSettings en a
        = (Ok tt,
           set_console (console a ++ [("檢查設置失敗:", e)])
             (set_requests (requests a ++ [get_settings]) a)))
  \/ (exists d,
        first_outcome en a get_settings = Resolved {| data := d |}
        /\ checkSettings en a
           = (Ok tt,
              let flag := js_or (opt_prop d "api_key_configured") (VBool false) in
              let a1 := set_apiKeyConfigured flag
                          (set_requests (requests a ++ [get_settings]) a) in
              if truthy flag then a1
              else set_timers (timers a ++ [OpenSettings 1000]) a1)).
Proof.
  unfold checkSettings, get_settings. unfold_monad.
  destruct (http en _ _) as [[d]|e] eqn:H; cbn.
  - destruct d as [| |b|z|s|l|f]; cbn;
      try (right; eexists; split; [reflexivity|reflexivity]).
    + left. eexists. split; [right; eexists; split; [reflexivity|now right]|].
      reflexivity.
    + left. eexists. split; [right; eexists; split; [reflexivity|now left]|].
      reflexivity.
    + right. eexists. split; [reflexivity|].
      unfold opt_prop. destruct (lookup "api_key_configured" f) as [v|]; cbn.
      * destruct (truthy (js_or v (VBool false))); reflexivity.
      * reflexivity.
  - left. exists e. split; [now left | reflexivity].
Qed.

End CheckSettings.

(** X9. When the settings request resolves with an object, [checkSettings]
    stores [api_key_configured || false] as the configured flag, and arms
    the one-second timer that opens the settings panel exactly when that
    flag is falsy. *)
Theorem checkSettings_reads_flag
    (en : env) (a : app) (fields : list (string * value)) :
  first_outcome en a get_settings = Resolved {| data := VObj fields |} ->
  apiKeyConfigured (after checkSettings en a)
  = js_or (opt_prop (VObj fields) "api_key_configured") (VBool false)
  /\ timers (after checkSettings en a)
     = (timers a
        ++ (if truthy (apiKeyConfigured (after checkSettings en a))
            then [] else [OpenSettings 1000]))%list.
Proof.
  intros H. unfold after.
  destruct (checkSettings_cases en a) as [(e & [R|(d & R & N)] & _)|(d & R & ->)].
  - rewrite H in R. discriminate R.
  - rewrite H in R. injection R as <-. destruct N; discriminate.
  - rewrite H in R. injection R as <-. cbn [snd].
    destruct (truthy (js_or (opt_prop (VObj fields) "api_key_configured")
                        (VBool false))) eqn:T; cbn -[opt_prop js_or truthy];
      rewrite ?T, ?app_nil_r; split; reflexivity.
Qed.

Lemma checkSettings_reads_flag_witness :
  apiKeyConfigured (after checkSettings backend_without_tasks
                      (loaded default_draft)) = VBool false
  /\ timers (after checkSettings backend_without_tasks (loaded default_draft))
     = [OpenSettings 1000].
Proof.
  exact (checkSettings_reads_flag backend_without_tasks (loaded default_draft)
           [("ok", VBool true)] eq_refl).
Defined.

(** X10. Whatever the backend answers, [checkSettings] returns normally
    after exactly one request, shows no toast, and does not itself change
    the settings panel or the draft; it arms at most the one-second timer,
    and only when the flag it leaves is falsy. *)
Theorem checkSettings_is_silent (en : env) (a : app) :
  returned checkSettings en a = Ok tt
  /\ requests (after checkSettings en a) = (requests a ++ [get_settings])%list
  /\ toasts (after checkSettings en a) = toasts a
  /\ showSettings (after checkSettings en a) = showSettings a
  /\ newTask (after checkSettings en a) = newTask a
  /\ (timers (after checkSettings en a) = timers a
      \/ (timers (after checkSettings en a)
          = (timers a ++ [OpenSettings 1000])%list
          /\ truthy (apiKeyConfigured (after checkSettings en a)) = false)).
Proof.
  unfold returned, after.
  destruct (checkSettings_cases en a) as [(e & _ & ->)|(d & _ & ->)]; cbn [fst snd].
  - repeat split; try reflexivity. now left.
  - destruct (truthy (js_or (opt_prop d "api_key_configured") (VBool false)))
      eqn:T; repeat split; try reflexivity.
    + now left.
    + right. split; [reflexivity | exact T].
Qed.

(** ** Reasoning about what a method keeps *)

Section Preserves.

Variable P : app -> Prop.

Lemma preserves_ret {A} (x : A) : preserves P (ret x).
Proof. intros en a H. exact H. Qed.

Lemma preserves_throw {A} (e : error) : preserves P (@throw A e).
Proof. intros en a H. exact H. Qed.

Lemma preserves_get : preserves P get.
Proof. intros en a H. exact H. Qed.

Lemma preserves_bind {A B} (m : M A) (k : A -> M B) :
  preserves P m -> (forall x, preserves P (k x)) -> preserves P (bind m k).
Proof.
  intros Hm Hk en a H. unfold bind. specialize (Hm en a H).
  destruct (m en a) as [[x|e] a']; cbn in *; [now apply Hk | assumption].
Qed.

Lemma preserves_try_catch {A} (m : M A) (h : error -> M A) :
  preserves P m -> (forall e, preserves P (h e)) -> preserves P (try_catch m h).
Proof.
  intros Hm Hh en a H. unfold try_catch. specialize (Hm en a H).
  destruct (m en a) as [[x|e] a']; cbn in *; [assumption | now apply Hh].
Qed.

Lemma preserves_try_finally {A} (m : M A) (f : M unit) :
  preserves P m -> preserves P f -> preserves P (try_finally m f).
Proof.
  intros Hm Hf en a H. unfold try_finally. specialize (Hm en a H).
  destruct (m en a) as [r a']. cbn in Hm. specialize (Hf en a' Hm).
  destruct (f en a') as [[u|e] a'']; assumption.
Qed.

Lemma preserves_modify (f : app -> app) :
  (forall a, P a -> P (f a)) -> preserves P (modify f).
Proof. intros Hf en a H. now apply Hf. Qed.

Lemma preserves_axios (q : request) :
  (forall a, P a -> P (set_requests (requests a ++ [q]) a)) ->
  preserves P (axios q).
Proof.
  intros Hq en a H. unfold axios.
  destruct (http en _ q); now apply Hq.
Qed.

Lemma preserves_confirm (msg : string) :
  (forall a, P a -> P (set_dialogs (dialogs a ++ [msg]) a)) ->
  preserves P (confirm_dialog msg).
Proof. intros Hd en a H. now apply Hd. Qed.

Lemma preserves_get_prop (v : value) (k : string) : preserves P (get_prop v k).
Proof.
  intros en a H. unfold get_prop.
  destruct v; try exact H. destruct (lookup k fields); exact H.
Qed.

Lemma preserves_fileToBase64 (read : read_outcome) :
  preserves P (fileToBase64 read).
Proof. intros en a H. destruct read; exact H. Qed.

End Preserves.

Section NeverThrows.








End NeverThrows.

Ltac unfold_methods :=
  unfold perform, refreshTasks, createTask, createTask_prompt_only, deleteTask,
    checkSettings, saveSettings, previewVideo, addReferenceImage,
    removeReferenceImage, handleImageUpload, handleRefImageUpload,
    set_reference_url, loadTasks, axios_get, axios_post, axios_delete,
    showError, showSuccess, console_error, setTimeout, reload.

Ltac preserve_step :=
  match goal with
  | |- preserves _ (bind _ _) => apply preserves_bind; [|intro]
  | |- preserves _ (try_catch _ _) => apply preserves_try_catch; [|intro]
  | |- preserves _ (try_finally _ _) => apply preserves_try_finally
  | |- preserves _ (ret _) => apply preserves_ret
  | |- preserves _ (throw _) => apply preserves_throw
  | |- preserves _ get => apply preserves_get
  | |- preserves _ (get_prop _ _) => apply preserves_get_prop
  | |- preserves _ (fileToBase64 _) => apply preserves_fileToBase64
  | |- preserves _ (modify _) => apply preserves_modify
  | |- preserves _ (axios _) => apply preserves_axios
  | |- preserves _ (confirm_dialog _) => apply preserves_confirm
  | |- preserves _ (if ?c then _ else _) => destruct c
  | |- preserves _ (match ?c with _ => _ end) => destruct c
  end.


(** ** Invariants of runs *)

Lemma run_invariant (P : app -> Prop) :
  (forall act, preserves P (perform act)) ->
  forall acts en a, P a -> P (run acts en a).
Proof.
  intros Hact acts en. induction acts as [|act rest IH]; intros a H; cbn.
  - exact H.
  - apply IH. unfold after. now apply Hact.
Qed.

Lemma perform_keeps_toasts_timed (act : action) :
  preserves (fun a => Forall toast_timed (toasts a)) (perform act).
Proof.
  destruct act; unfold_methods; repeat preserve_step;
    intros ? H; cbn; try assumption;
    apply Forall_app; split; try assumption;
    repeat constructor.
Qed.

(** X11. Toasts keep their timing through any run of the component: if
    every success toast on the page is set to leave after 3 s and every
    error toast after 5 s, the same holds after any sequence of method
    calls, whatever the backend and the user answer. *)
Theorem run_keeps_toasts_timed (acts : list action) (en : env) (a : app) :
  Forall toast_timed (toasts a) ->
  Forall toast_timed (toasts (run acts en a)).
Proof.
  apply (run_invariant (fun a => Forall toast_timed (toasts a))).
  exact perform_keeps_toasts_timed.
Qed.

Lemma run_keeps_toasts_timed_witness :
  Forall toast_timed
    (toasts (run [DoCheckSettings; DoCreateTask; DoRefreshTasks; DoSaveSettings]
               backend_down (loaded (portrait_draft "a cat")))).
Proof.
  apply run_keeps_toasts_timed. constructor.
Defined.

Lemma perform_leaves_form (d : draft) (b : bool) (act : action) :
  leaves_form act = true ->
  preserves (fun a => newTask a = d /\ isCreating a = b) (perform act).
Proof.
  destruct act; try discriminate; intros _;
    unfold_methods; repeat preserve_step; intros ? H; exact H.
Qed.

(** X12. Loading, refreshing, deleting, checking or saving settings and
    previewing never touch the form: after any run of these calls the draft
    and the busy flag are what they were, whatever the backend and the user
    answer. *)
Theorem run_leaves_form (acts : list action) (en : env) (a : app) :
  forallb leaves_form acts = true ->
  newTask (run acts en a) = newTask a
  /\ isCreating (run acts en a) = isCreating a.
Proof.
  revert a. induction acts as [|act rest IH]; intros a H; cbn.
  - split; reflexivity.
  - cbn in H. apply andb_prop in H. destruct H as [Hact Hrest].
    destruct (IH (after (perform act) en a) Hrest) as [-> ->].
    exact (perform_leaves_form (newTask a) (isCreating a) act Hact en a
             (conj eq_refl eq_refl)).
Qed.

Lemma run_leaves_form_witness :
  newTask (run [DoCheckSettings; DoLoadTasks; DoDeleteTask (VStr "t1");
                DoRefreshTasks; DoSaveSettings]
             backend_up (loaded (portrait_draft "a cat")))
  = portrait_draft "a cat".
Proof.
  destruct (run_leaves_form
              [DoCheckSettings; DoLoadTasks; DoDeleteTask (VStr "t1");
               DoRefreshTasks; DoSaveSettings]
              backend_up (loaded (portrait_draft "a cat")) eq_refl) as [H _].
  exact H.
Defined.

Lemma perform_local (rs : list request) (t : value) (k : value) (act : action) :
  local_action act = true ->
  preserves (fun a => requests a = rs /\ tasks a = t /\ apiKeyConfigured a = k)
    (perform act).
Proof.
  destruct act; try discriminate; intros _;
    unfold_methods; repeat preserve_step; intros ? H; exact H.
Qed.

(** X13. Working on the form stays on the page: previewing, adding or
    removing a reference image and choosing image files issue no request
    and leave the tasks cache and the configured flag as they were, through
    any run of such calls. *)
Theorem run_local_actions (acts : list action) (en : env) (a : app) :
  forallb local_action acts = true ->
  requests (run acts en a) = requests a
  /\ tasks (run acts en a) = tasks a
  /\ apiKeyConfigured (run acts en a) = apiKeyConfigured a.
Proof.
  revert a. induction acts as [|act rest IH]; intros a H; cbn.
  - repeat split; reflexivity.
  - cbn in H. apply andb_prop in H. destruct H as [Hact Hrest].
    destruct (IH (after (perform act) en a) Hrest) as (-> & -> & ->).
    exact (perform_local (requests a) (tasks a) (apiKeyConfigured a) act Hact
             en a (conj eq_refl (conj eq_refl eq_refl))).
Qed.

Lemma run_local_actions_witness :
  requests (run [DoAddReferenceImage;
                 DoRefImageUpload (File (Loaded "data:image/png;base64,AA")) 1;
                 DoImageUpload (File (Failed network_error)) 0;
                 DoRemoveReferenceImage 0]
              backend_up (loaded default_draft)) = [].
Proof.
  destruct (run_local_actions
              [DoAddReferenceImage;
               DoRefImageUpload (File (Loaded "data:image/png;base64,AA")) 1;
               DoImageUpload (File (Failed network_error)) 0;
               DoRemoveReferenceImage 0]
              backend_up (loaded default_draft) eq_refl) as [H _].
  exact H.
Defined.



(** ** Arrays: index assignment and [splice] *)

Section Arrays.

Context {A : Type}.

Lemma array_set_same (hole : A) (l : list A) (i : nat) (v : A) :
  nth_error (array_set hole l i v) i = Some v.
Proof.
  revert l; induction i as [|i IH]; intros [|x l]; cbn; auto.
Qed.

Lemma array_set_other (hole : A) (l : list A) (i j : nat) (v : A) :
  j <> i -> (j < List.length l)%nat ->
  nth_error (array_set hole l i v) j = nth_error l j.
Proof.
  revert l j; induction i as [|i IH]; intros [|x l] [|j] Hne Hlt; cbn in *;
    try lia; try reflexivity.
  apply IH; lia.
Qed.

Lemma array_set_length_in_range (hole : A) (l : list A) (i : nat) (v : A) :
  (i < List.length l)%nat ->
  List.length (array_set hole l i v) = List.length l.
Proof.
  revert l; induction i as [|i IH]; intros [|x l] H; cbn in *; try lia.
  rewrite IH; lia.
Qed.

(** Past the end the array grows to hold position [i]. *)
Lemma array_set_length_past_end (hole : A) (l : list A) (i : nat) (v : A) :
  (List.length l <= i)%nat ->
  List.length (array_set hole l i v) = S i.
Proof.
  revert l; induction i as [|i IH]; intros [|x l] H; cbn in *; try lia.
  - rewrite IH; cbn; lia.
  - rewrite IH; lia.
Qed.

Lemma list_update_length (l : list A) (i : nat) (v : A) :
  List.length (list_update l i v) = List.length l.
Proof.
  revert i; induction l as [|x l IH]; intros [|i]; cbn; auto.
Qed.

Lemma list_update_same (l : list A) (i : nat) (v : A) :
  (i < List.length l)%nat -> nth_error (list_update l i v) i = Some v.
Proof.
  revert i; induction l as [|x l IH]; intros [|i] H; cbn in *; try lia; auto.
  apply IH; lia.
Qed.

Lemma list_update_other (l : list A) (i j : nat) (v : A) :
  j <> i -> nth_error (list_update l i v) j = nth_error l j.
Proof.
  revert i j; induction l as [|x l IH]; intros [|i] [|j] H; cbn; try lia; auto.
Qed.

(** [splice(i, 1)] removes one entry exactly when [i] is below the length. *)
Lemma splice_one_length (l : list A) (i : Z) :
  List.length (splice_one l i)
  = if (i <? Z.of_nat (List.length l))%Z
    then (List.length l - 1)%nat else List.length l.
Proof.
  unfold splice_one. rewrite length_app, length_firstn, length_skipn.
  destruct (i <? Z.of_nat (List.length l))%Z eqn:E;
    [apply Z.ltb_lt in E | apply Z.ltb_ge in E];
    destruct (i <? 0)%Z eqn:N;
    [apply Z.ltb_lt in N | apply Z.ltb_ge in N |
     apply Z.ltb_lt in N | apply Z.ltb_ge in N]; lia.
Qed.

Lemma splice_one_past_end (l : list A) (i : Z) :
  (Z.of_nat (List.length l) <= i)%Z -> splice_one l i = l.
Proof.
  intros H. unfold splice_one.
  destruct (i <? 0)%Z eqn:N; [apply Z.ltb_lt in N; lia|].
  rewrite Z.min_r by lia. rewrite Nat2Z.id, firstn_all.
  rewrite skipn_all2 by lia. apply app_nil_r.
Qed.

Lemma splice_one_at (l : list A) (i : nat) :
  splice_one l (Z.of_nat i) = (firstn i l ++ skipn (S i) l)%list.
Proof.
  unfold splice_one.
  destruct (Z.of_nat i <? 0)%Z eqn:N; [apply Z.ltb_lt in N; lia|].
  destruct (Nat.le_gt_cases (List.length l) i) as [H|H].
  - rewrite Z.min_r by lia. rewrite Nat2Z.id, firstn_all.
    rewrite firstn_all2 by lia. rewrite !skipn_all2 by lia. reflexivity.
  - rewrite Z.min_l by lia. now rewrite Nat2Z.id.
Qed.

Lemma splice_one_last (l : list A) (x : A) (n : nat) :
  n = List.length l -> splice_one (l ++ [x]) (Z.of_nat n) = l.
Proof.
  intros ->. rewrite splice_one_at.
  rewrite firstn_app, firstn_all, Nat.sub_diag. cbn [firstn].
  rewrite skipn_all2 by (rewrite length_app; cbn; lia).
  now rewrite !app_nil_r.
Qed.

Lemma splice_one_nth (l : list A) (i j : nat) :
  (i < List.length l)%nat ->
  nth_error (splice_one l (Z.of_nat i)) j
  = nth_error l (if (j <? i)%nat then j else S j).
Proof.
  intros H. rewrite splice_one_at.
  destruct (j <? i)%nat eqn:E; [apply Nat.ltb_lt in E | apply Nat.ltb_ge in E].
  - rewrite nth_error_app1 by (rewrite length_firstn; lia).
    rewrite nth_error_firstn.
    destruct (j <? i)%nat eqn:E'; [reflexivity | apply Nat.ltb_ge in E'; lia].
  - rewrite nth_error_app2 by (rewrite length_firstn; lia).
    rewrite length_firstn, nth_error_skipn. f_equal. lia.
Qed.

End Arrays.

(** ** The reference-image form *)

Lemma perform_keeps_ref_form (act : action) : preserves ref_form_ok (perform act).
Proof.
  destruct act as [| | | | | | | | |index|file index|file index];
    try (unfold_methods; repeat preserve_step;
         intros ? H; unfold ref_form_ok in *; cbn in *;
         first [assumption | lia]).
  - (* addReferenceImage *)
    intros en a (Hm & Hp & Hlo & Hhi). unfold ref_form_ok.
    cbn [perform]. unfold addReferenceImage, bind, get, modify, ret.
    cbn -[Nat.ltb Z.ltb].
    destruct (List.length (referenceImages (newTask a)) <? 4)%nat eqn:E; cbn.
    + apply Nat.ltb_lt in E. rewrite !length_app. cbn. lia.
    + lia.
  - (* removeReferenceImage *)
    intros en a (Hm & Hp & Hlo & Hhi). unfold ref_form_ok.
    cbn [perform]. unfold removeReferenceImage, bind, get, modify, ret.
    cbn -[Nat.ltb Z.ltb].
    destruct (1 <? List.length (referenceImages (newTask a)))%nat eqn:E; cbn.
    + apply Nat.ltb_lt in E. rewrite !splice_one_length, Hm, Hp.
      destruct (index <? Z.of_nat (List.length (referenceImages (newTask a))))%Z;
        lia.
    + lia.
  - (* handleRefImageUpload *)
    intros en a (Hm & Hp & Hlo & Hhi). unfold ref_form_ok.
    cbn [perform].
    unfold handleRefImageUpload, set_reference_url, fileToBase64, try_catch,
      bind, get, modify, ret, throw, console_error, showError.
    destruct file as [|[b|e]]; cbn;
      try (destruct (nth_error (referenceImages (newTask a)) index) eqn:E; cbn;
           [ assert (index < List.length (referenceImages (newTask a)))%nat
               by (apply nth_error_Some; congruence);
             rewrite list_update_length, array_set_length_in_range by lia
           | ]);
      lia.
Qed.

(** X15. The reference-image form stays well formed through any run: if its
    three arrays (images, input modes, previews) have the same length,
    between one and four, they still do after any sequence of method calls,
    whatever the backend and the user answer. *)
Theorem run_keeps_ref_form (acts : list action) (en : env) (a : app) :
  ref_form_ok a -> ref_form_ok (run acts en a).
Proof. apply (run_invariant ref_form_ok). exact perform_keeps_ref_form. Qed.

Lemma ref_form_initial : ref_form_ok initial.
Proof. unfold ref_form_ok. cbn. lia. Defined.

Lemma run_keeps_ref_form_witness :
  ref_form_ok
    (run [DoAddReferenceImage; DoAddReferenceImage; DoAddReferenceImage;
          DoAddReferenceImage; DoRemoveReferenceImage (-1); DoCreateTask;
          DoRefImageUpload NoFile 7; DoRemoveReferenceImage 0]
       backend_up initial).
Proof. apply run_keeps_ref_form. exact ref_form_initial. Defined.

(** X16. Adding a reference image and then removing the last one is a round
    trip: on a well-formed form with fewer than four reference images, the
    component is exactly what it was. *)
Theorem add_then_remove_reference (en : env) (a : app) :
  ref_form_ok a ->
  (List.length (referenceImages (newTask a)) < 4)%nat ->
  run [DoAddReferenceImage;
       DoRemoveReferenceImage (Z.of_nat (List.length (referenceImages (newTask a))))]
    en a = a.
Proof.
  intros (Hm & Hp & Hlo & Hhi) H4. cbn [run perform]. unfold after.
  unfold addReferenceImage, removeReferenceImage, bind, get, modify, ret.
  apply Nat.ltb_lt in H4. cbn -[Nat.ltb Z.ltb]. rewrite H4.
  cbn -[Nat.ltb Z.ltb]. rewrite length_app. cbn -[Nat.ltb Z.ltb].
  replace (1 <? List.length (referenceImages (newTask a)) + 1)%nat with true
    by (symmetry; apply Nat.ltb_lt; lia).
  cbn -[Nat.ltb Z.ltb].
  rewrite (splice_one_last (referenceImages (newTask a))) by reflexivity.
  rewrite (splice_one_last (refImageInputModes a)) by (symmetry; exact Hm).
  rewrite (splice_one_last (refImagePreviews a)) by (symmetry; exact Hp).
  destruct a as [t [p im imgs refs r du rs sd cf] m1 p1 m2 p2 ss k kc pv po ic
                   rq ts co di ti re].
  reflexivity.
Qed.

Lemma add_then_remove_reference_witness :
  run [DoAddReferenceImage; DoRemoveReferenceImage 1] backend_up
    (loaded default_draft) = loaded default_draft.
Proof.
  apply (add_then_remove_reference backend_up (loaded default_draft)).
  - unfold ref_form_ok. cbn. lia.
  - cbn. lia.
Defined.

(** X17. [addReferenceImage] adds one empty entry unless there are already
    four, and [removeReferenceImage] removes one entry exactly when more than
    one is left and the index is below the length (a negative index counts
    from the end); for an index within the list, the entry removed is the
    one at that index. *)
Theorem reference_list_bounds (en : env) (a : app) (index : Z) :
  let n := List.length (referenceImages (newTask a)) in
  List.length (referenceImages (newTask (after addReferenceImage en a)))
  = (if (n <? 4)%nat then S n else n)
  /\ List.length (referenceImages (newTask (after (removeReferenceImage index) en a)))
     = (if (1 <? n)%nat && (index <? Z.of_nat n)%Z then (n - 1)%nat else n)
  /\ (forall i j : nat,
        index = Z.of_nat i -> (1 < n)%nat -> (i < n)%nat ->
        nth_error (referenceImages
                     (newTask (after (removeReferenceImage index) en a))) j
        = nth_error (referenceImages (newTask a))
            (if (j <? i)%nat then j else S j)).
Proof.
  cbv zeta. unfold after, addReferenceImage, removeReferenceImage, bind, get,
    modify, ret. cbn -[Nat.ltb Z.ltb].
  split; [|split].
  - destruct (List.length (referenceImages (newTask a)) <? 4)%nat; cbn.
    + rewrite length_app. cbn. lia.
    + reflexivity.
  - destruct (1 <? List.length (referenceImages (newTask a)))%nat; cbn.
    + apply splice_one_length.
    + reflexivity.
  - intros i j -> H1 Hi. apply Nat.ltb_lt in H1. rewrite H1. cbn.
    now apply splice_one_nth.
Qed.

Lemma reference_list_bounds_witness :
  nth_error
    (referenceImages
       (newTask (after (removeReferenceImage 0) backend_up
                   (set_newTask
                      (set_referenceImages
                         [ {| url := VStr "a" |}; {| url := VStr "b" |} ]
                         default_draft) initial)))) 0
  = Some {| url := VStr "b" |}.
Proof.
  destruct (reference_list_bounds backend_up
              (set_newTask
                 (set_referenceImages
                    [ {| url := VStr "a" |}; {| url := VStr "b" |} ]
                    default_draft) initial) 0) as (_ & _ & H).
  apply (H 0%nat 0%nat eq_refl); cbn; lia.
Defined.

(** ** Choosing image files *)

(** X18. [handleImageUpload] with a cleared choice or a file that reads
    stores the same value ([null], or the data URL) in slot [index] of both
    the draft's images and the previews, leaves every other existing slot
    and the rest of the draft alone, shows no toast and returns normally. *)
Theorem handleImageUpload_stores
    (en : env) (a : app) (file : chosen_file) (index : nat) (v : value) :
  (file = NoFile /\ v = VNull) \/ (exists b, file = File (Loaded b) /\ v = VStr b) ->
  returned (handleImageUpload file index) en a = Ok tt
  /\ nth_error (images (newTask (after (handleImageUpload file index) en a))) index
     = Some v
  /\ nth_error (imagePreviews (after (handleImageUpload file index) en a)) index
     = Some v
  /\ (forall j, j <> index -> (j < List.length (images (newTask a)))%nat ->
        nth_error (images (newTask (after (handleImageUpload file index) en a))) j
        = nth_error (images (newTask a)) j)
  /\ set_images (images (newTask a))
       (newTask (after (handleImageUpload file index) en a)) = newTask a
  /\ toasts (after (handleImageUpload file index) en a) = toasts a.
Proof.
  intros [[-> ->]|(b & -> & ->)]; unfold returned, after; cbn;
    (repeat split;
     [ apply array_set_same | apply array_set_same
     | intros j Hne Hlt; now apply array_set_other
     | now destruct (newTask a) ]).
Qed.

Lemma handleImageUpload_stores_witness :
  nth_error
    (images (newTask (after (handleImageUpload (File (Loaded "data:,x")) 1)
                        backend_up initial))) 1
  = Some (VStr "data:,x").
Proof.
  destruct (handleImageUpload_stores backend_up initial (File (Loaded "data:,x")) 1
              (VStr "data:,x") (or_intror (ex_intro _ "data:,x" (conj eq_refl eq_refl))))
    as (_ & H & _).
  exact H.
Defined.

(** X19. If reading the chosen file fails, [handleImageUpload] changes
    neither the draft nor the previews; it returns normally after showing
    one error toast whose text does not depend on the failure. *)
Theorem handleImageUpload_read_failure
    (en : env) (a : app) (e : error) (index : nat) :
  returned (handleImageUpload (File (Failed e)) index) en a = Ok tt
  /\ newTask (after (handleImageUpload (File (Failed e)) index) en a) = newTask a
  /\ imagePreviews (after (handleImageUpload (File (Failed e)) index) en a)
     = imagePreviews a
  /\ toasts (after (handleImageUpload (File (Failed e)) index) en a)
     = (toasts a ++ [error_toast "處理圖片失敗"])%list
  /\ console (after (handleImageUpload (File (Failed e)) index) en a)
     = (console a ++ [("處理圖片失敗:", e)])%list.
Proof. repeat split; reflexivity. Qed.

(** X20. A first frame chosen with [handleImageUpload] is what [createTask]
    sends: in mode [first_frame], after a file read into slot 0, the first
    request of a [createTask] that passes validation is the POST to
    [/api/tasks] whose [images] field is that one data URL with role
    [first_frame]. *)
Theorem uploaded_first_frame_is_posted (en : env) (a : app) (b : string) :
  imageMode (newTask a) = "first_frame" ->
  b <> "" ->
  ~ blank (prompt (newTask a)) ->
  truthy (apiKeyConfigured a) = true ->
  exists fields,
    nth_error
      (requests (run [DoImageUpload (File (Loaded b)) 0; DoCreateTask] en a))
      (List.length (requests a))
    = Some (post_task fields)
    /\ lookup "images" fields = Some (VArr [image_entry (VStr b) "first_frame"]).
Proof.
  intros Hmode Hb B K. cbn [run perform].
  set (a1 := after (handleImageUpload (File (Loaded b)) 0) en a).
  assert (Hp : prompt (newTask a1) = prompt (newTask a)) by reflexivity.
  assert (Hk : apiKeyConfigured a1 = apiKeyConfigured a) by reflexivity.
  assert (Hr : requests a1 = requests a) by reflexivity.
  assert (Hm : imageMode (newTask a1) = "first_frame") by exact Hmode.
  assert (Hi : nth 0 (images (newTask a1)) VUndefined = VStr b).
  { unfold a1, after. cbn. now destruct (images (newTask a)). }
  assert (B1 : ~ blank (prompt (newTask a1))) by (rewrite Hp; exact B).
  assert (K1 : truthy (apiKeyConfigured a1) = true) by (rewrite Hk; exact K).
  exists (requestData (newTask a1)). split.
  - rewrite <- Hr. unfold after.
    destruct (first_outcome en a1 (post_task (requestData (newTask a1))))
      as [r|e] eqn:H.
    + rewrite (createTask_resolved en a1 r B1 K1 H). cbn [snd].
      unfold created. cbn [requests set_isCreating set_toasts].
      match goal with |- context [after loadTasks en ?x] =>
        destruct (loadTasks_frame en x) as (_ & -> & _)
      end.
      unfold reset_form. cbn [requests set_requests set_newTask
        set_imageInputModes set_imagePreviews set_refImageInputModes
        set_refImagePreviews].
      rewrite <- app_assoc. cbn [Datatypes.app].
      apply nth_error_first_new.
    + rewrite (createTask_rejected en a1 e B1 K1 H). cbn [snd].
      unfold create_failed. cbn [requests set_isCreating set_toasts
        set_console set_requests].
      apply nth_error_first_new.
  - unfold requestData. rewrite Hm, Hi. cbn.
    destruct (String.eqb_spec b ""); [contradiction | reflexivity].
Qed.

Lemma uploaded_first_frame_is_posted_witness :
  exists fields,
    nth_error
      (requests (run [DoImageUpload (File (Loaded "data:,x")) 0; DoCreateTask]
                   backend_up (loaded (first_frame_draft "a cat")))) 0
    = Some (post_task fields)
    /\ lookup "images" fields
       = Some (VArr [image_entry (VStr "data:,x") "first_frame"]).
Proof.
  apply (uploaded_first_frame_is_posted backend_up
           (loaded (first_frame_draft "a cat")) "data:,x").
  - reflexivity.
  - discriminate.
  - exact not_blank_word.
  - reflexivity.
Defined.

(** X21. [handleRefImageUpload] at an index that holds a reference image,
    with a cleared choice or a file that reads, stores the value ([null], or
    the data URL) as that image's [url] and in the same slot of the
    previews, keeps the other reference images and the number of them, and
    returns normally. *)
Theorem handleRefImageUpload_stores
    (en : env) (a : app) (file : chosen_file) (index : nat) (v : value) :
  (file = NoFile /\ v = VNull) \/ (exists b, file = File (Loaded b) /\ v = VStr b) ->
  (index < List.length (referenceImages (newTask a)))%nat ->
  returned (handleRefImageUpload file index) en a = Ok tt
  /\ nth_error (referenceImages
                  (newTask (after (handleRefImageUpload file index) en a))) index
     = Some {| url := v |}
  /\ nth_error (refImagePreviews (after (handleRefImageUpload file index) en a)) index
     = Some v
  /\ (forall j, j <> index ->
        nth_error (referenceImages
                     (newTask (after (handleRefImageUpload file index) en a))) j
        = nth_error (referenceImages (newTask a)) j)
  /\ List.length (referenceImages
                    (newTask (after (handleRefImageUpload file index) en a)))
     = List.length (referenceImages (newTask a)).
Proof.
  intros Hfile Hlt.
  destruct (nth_error (referenceImages (newTask a)) index) as [old|] eqn:E;
    [|apply nth_error_None in E; lia].
  destruct Hfile as [[-> ->]|(b & -> & ->)]; unfold returned, after;
    unfold handleRefImageUpload, set_reference_url, fileToBase64, try_catch,
      bind, get, modify, ret, throw; cbn; rewrite E; cbn;
    (repeat split;
     [ now apply list_update_same | apply array_set_same
     | intros j Hne; now apply list_update_other
     | apply list_update_length ]).
Qed.

Lemma handleRefImageUpload_stores_witness :
  nth_error
    (referenceImages
       (newTask (after (handleRefImageUpload (File (Loaded "data:,x")) 0)
                   backend_up initial))) 0
  = Some {| url := VStr "data:,x" |}.
Proof.
  destruct (handleRefImageUpload_stores backend_up initial
              (File (Loaded "data:,x")) 0 (VStr "data:,x")
              (or_intror (ex_intro _ "data:,x" (conj eq_refl eq_refl))))
    as (_ & H & _).
  - cbn. lia.
  - exact H.
Defined.

(** X22. [handleRefImageUpload] with a file, at an index that holds no
    reference image or when the read fails, changes neither the draft nor
    the previews: the failure is caught, logged, and answered with the one
    fixed error toast. *)
Theorem handleRefImageUpload_failure
    (en : env) (a : app) (read : read_outcome) (index : nat) :
  (List.length (referenceImages (newTask a)) <= index)%nat
  \/ (exists e, read = Failed e) ->
  returned (handleRefImageUpload (File read) index) en a = Ok tt
  /\ newTask (after (handleRefImageUpload (File read) index) en a) = newTask a
  /\ refImagePreviews (after (handleRefImageUpload (File read) index) en a)
     = refImagePreviews a
  /\ toasts (after (handleRefImageUpload (File read) index) en a)
     = (toasts a ++ [error_toast "處理圖片失敗"])%list.
Proof.
  intros H. unfold returned, after.
  unfold handleRefImageUpload, set_reference_url, fileToBase64, try_catch,
    bind, get, modify, ret, throw, console_error, showError.
  destruct read as [b|e]; cbn.
  - destruct H as [H|[e H]]; [|discriminate].
    apply nth_error_None in H. rewrite H. cbn. repeat split; reflexivity.
  - repeat split; reflexivity.
Qed.

Lemma handleRefImageUpload_failure_witness :
  toasts (after (handleRefImageUpload (File (Loaded "data:,x")) 3)
            backend_up initial)
  = [error_toast "處理圖片失敗"].
Proof.
  destruct (handleRefImageUpload_failure backend_up initial (Loaded "data:,x") 3)
    as (_ & _ & _ & H).
  - left. cbn. lia.
  - exact H.
Defined.

(** ** The images of a request *)

Lemma reference_entries_ok (refs : list refImage) :
  Forall (entry_ok ["reference_image"])
    (map (fun img => image_entry (url img) "reference_image")
       (filter (fun img => truthy (url img)) refs)).
Proof.
  induction refs as [|img refs IH]; cbn; [constructor|].
  destruct (truthy (url img)) eqn:T; [|exact IH].
  constructor; [|exact IH].
  exists (url img), "reference_image". repeat split; [exact T | now left].
Qed.

(** X23. The body [createTask] posts always carries the image mode, and an
    [images] field only as a non-empty array: every entry has a truthy [url]
    and a role that fits the mode ([first_frame]; [first_frame] or
    [last_frame]; [reference_image]), and in any other mode there is no
    [images] field at all. *)
Theorem requestData_images (d : draft) :
  lookup "imageMode" (requestData d) = Some (VStr (imageMode d))
  /\ (lookup "images" (requestData d) = None
      \/ exists imgs,
           lookup "images" (requestData d) = Some (VArr imgs)
           /\ imgs <> []
           /\ Forall (entry_ok (image_roles (imageMode d))) imgs)
  /\ (image_roles (imageMode d) = [] -> lookup "images" (requestData d) = None).
Proof.
  unfold requestData, image_roles.
  destruct (imageMode d =? "first_frame") eqn:M1.
  { destruct (truthy (nth 0 (images d) VUndefined)) eqn:T0; cbn.
    - split; [reflexivity|]. split; [|discriminate].
      right. eexists. split; [reflexivity|]. split; [discriminate|].
      repeat constructor. eexists _, _. repeat split; [exact T0 | now left].
    - split; [reflexivity|]. split; [now left | reflexivity]. }
  destruct (imageMode d =? "first_last_frame") eqn:M2.
  { destruct (truthy (nth 0 (images d) VUndefined)) eqn:T0;
      destruct (truthy (nth 1 (images d) VUndefined)) eqn:T1; cbn;
      (split; [reflexivity|]); (split; [|discriminate]);
      try (now left);
      right; eexists; (split; [reflexivity|]); (split; [discriminate|]);
      repeat constructor; eexists _, _; repeat split;
      first [exact T0 | exact T1 | now left | right; now left]. }
  destruct (imageMode d =? "reference") eqn:M3.
  { pose proof (reference_entries_ok (referenceImages d)) as Hok.
    destruct (map _ (filter _ (referenceImages d))) as [|x imgs]; cbn.
    - split; [reflexivity|]. split; [now left | reflexivity].
    - split; [reflexivity|]. split; [|discriminate].
      right. eexists. split; [reflexivity|]. split; [discriminate | exact Hok]. }
  cbn. split; [reflexivity|]. split; [now left | reflexivity].
Qed.

Lemma requestData_images_witness :
  lookup "images" (requestData (portrait_draft "a cat")) = None.
Proof.
  destruct (requestData_images (portrait_draft "a cat")) as (_ & _ & H).
  exact (H eq_refl).
Defined.

(** ** The status tables *)

Lemma existsb_eqb_false (key : string) (l : list string) :
  ~ In key l -> existsb (String.eqb key) l = false.
Proof.
  intros H. induction l as [|x l IH]; [reflexivity|].
  cbn. destruct (String.eqb_spec key x) as [->|_].
  - elim H. now left.
  - apply IH. intros Hin. apply H. now right.
Qed.

(** X24. For every status whose name is not inherited from
    [Object.prototype], [getStatusColor] and [getStatusBadge] show the same
    colour family: yellow, blue, green or red for pending, processing,
    completed and failed, and gray for cancelled and for every other
    status. *)
Theorem status_colour_and_badge_agree (status : value) :
  ~ In (to_string status) object_prototype_members ->
  getStatusColor status = Val (VStr ("bg-" ++ status_hue status ++ "-500"))
  /\ getStatusBadge status
     = Val (VStr ("bg-" ++ status_hue status ++ "-100 text-"
                  ++ status_hue status ++ "-800"))
  /\ In (status_hue status) ["yellow"; "blue"; "green"; "red"; "gray"].
Proof.
  intros H. apply existsb_eqb_false in H.
  unfold getStatusColor, getStatusBadge, table_or, status_hue, colors, badges.
  cbn [lookup].
  destruct ("pending" =? to_string status);
    [repeat split; cbn; auto|].
  destruct ("processing" =? to_string status);
    [repeat split; cbn; auto|].
  destruct ("completed" =? to_string status);
    [repeat split; cbn; auto|].
  destruct ("failed" =? to_string status);
    [repeat split; cbn; auto|].
  destruct ("cancelled" =? to_string status);
    [repeat split; cbn; auto 6|].
  rewrite H. repeat split. cbn. auto 6.
Qed.

Lemma status_colour_and_badge_agree_witness :
  getStatusColor (VStr "queued") = Val (VStr "bg-gray-500")
  /\ getStatusBadge (VStr "failed") = Val (VStr "bg-red-100 text-red-800").
Proof.
  split.
  - destruct (status_colour_and_badge_agree (VStr "queued")) as (H & _).
    + cbn. intuition discriminate.
    + exact H.
  - destruct (status_colour_and_badge_agree (VStr "failed")) as (_ & H & _).
    + cbn. intuition discriminate.
    + exact H.
Defined.

(** X25. [getStatusText] gives each of the five statuses its own non-empty
    label and hands back every other status unchanged (when its name is not
    inherited from [Object.prototype]). *)
Theorem getStatusText_fallback (status : value) :
  ~ In (to_string status) object_prototype_members ->
  (known_status status = false -> getStatusText status = Val status)
  /\ (known_status status = true ->
      exists label,
        getStatusText status = Val (VStr label)
        /\ label <> ""
        /\ In (to_string status, VStr label) texts).
Proof.
  intros H. apply existsb_eqb_false in H.
  unfold getStatusText, table_or, known_status, texts. cbn [lookup existsb].
  rewrite !(String.eqb_sym (to_string status)).
  destruct (String.eqb_spec "pending" (to_string status)) as [<-|_].
  { split; [discriminate|]. intros _. eexists. repeat split;
      [discriminate | now left]. }
  destruct (String.eqb_spec "processing" (to_string status)) as [<-|_].
  { split; [discriminate|]. intros _. eexists. repeat split;
      [discriminate | right; now left]. }
  destruct (String.eqb_spec "completed" (to_string status)) as [<-|_].
  { split; [discriminate|]. intros _. eexists. repeat split;
      [discriminate | right; right; now left]. }
  destruct (String.eqb_spec "failed" (to_string status)) as [<-|_].
  { split; [discriminate|]. intros _. eexists. repeat split;
      [discriminate | right; right; right; now left]. }
  destruct (String.eqb_spec "cancelled" (to_string status)) as [<-|_].
  { split; [discriminate|]. intros _. eexists. repeat split;
      [discriminate | right; right; right; right; now left]. }
  rewrite H. split; [reflexivity | discriminate].
Qed.

Lemma getStatusText_fallback_witness :
  getStatusText (VStr "queued") = Val (VStr "queued")
  /\ getStatusText VUndefined = Val VUndefined.
Proof.
  split.
  - destruct (getStatusText_fallback (VStr "queued")) as (H & _).
    + cbn. intuition discriminate.
    + exact (H eq_refl).
  - destruct (getStatusText_fallback VUndefined) as (H & _).
    + cbn. intuition discriminate.
    + exact (H eq_refl).
Defined.

(** X26. A status named like a member of [Object.prototype]
    ([constructor], [toString], ...) gets no class and no label from the
    tables: the lookups find the inherited member, which is truthy, and
    return it instead of the fallback. *)
Theorem status_named_like_inherited_member (status : value) :
  In (to_string status) object_prototype_members ->
  getStatusColor status = Inherited (to_string status)
  /\ getStatusBadge status = Inherited (to_string status)
  /\ getStatusText status = Inherited (to_string status).
Proof.
  intros H. unfold getStatusColor, getStatusBadge, getStatusText, table_or.
  cbn in H.
  repeat (destruct H as [<-|H]; [repeat split; reflexivity|]).
  contradiction.
Qed.

Lemma status_named_like_inherited_member_witness :
  getStatusColor (VStr "constructor") = Inherited "constructor".
Proof.
  destruct (status_named_like_inherited_member (VStr "constructor")) as (H & _).
  - left. reflexivity.
  - exact H.
Defined.

(** ** The optional flags of the parameter string *)

(** X27. [buildParameterString] lists the [--rt], [--dur] and [--rs] tokens
    exactly when the ratio, the duration and the resolution are truthy: an
    empty string, [0], [null] or [undefined] drops the token (a duration of
    0 is dropped, while a seed of 0 is kept); the string holds between two
    and six tokens. *)
Theorem optional_flags_follow_truthiness (d : draft) :
  (In ("--rt " ++ to_string (ratio d)) (params d) <-> truthy (ratio d) = true)
  /\ (In ("--dur " ++ to_string (duration d)) (params d)
      <-> truthy (duration d) = true)
  /\ (In ("--rs " ++ to_string (resolution d)) (params d)
      <-> truthy (resolution d) = true)
  /\ (2 <= List.length (params d) <= 6)%nat.
Proof.
  unfold params.
  destruct (truthy (ratio d)), (truthy (duration d)), (truthy (resolution d)),
    (strict_neq_null (seed d) && strict_neq_empty (seed d));
    cbn; (split; [|split; [|split]]); try lia;
    (split; [intros H; try reflexivity;
             repeat (destruct H as [H|H]; [discriminate H|]); contradiction
            | intros H; try discriminate H; auto 10]).
Qed.

Lemma optional_flags_follow_truthiness_witness :
  In "--dur 5" (params default_draft)
  /\ ~ In "--dur 0" (params (first_frame_draft "a cat")).
Proof.
  split.
  - destruct (optional_flags_follow_truthiness default_draft) as (_ & H & _).
    apply (proj2 H). reflexivity.
  - destruct (optional_flags_follow_truthiness (first_frame_draft "a cat"))
      as (_ & H & _).
    intros Hin. apply (proj1 H) in Hin. discriminate Hin.
Defined.
